(** * GluonBootcamp: the dataset sharder/uploader and the training entry point

    A shallow embedding of the two code cells of the distributed-training
    notebook that define [save_and_upload] and [split_and_upload] (both
    revisions of the notebook), together with a model of the training entry
    point whose module, [multiple_regression.py], is imported by the notebook
    but is not part of the sources at hand. *)

From stdpp Require Import base numbers strings gmap list list_monad pretty.
From Stdlib Require Import ZArith Lia Ascii.

(** ** Python primitives used by the notebook cells *)

Module Py.

Local Open Scope Z_scope.

(** The exceptions the modelled code can raise. *)
Inductive exn : Set :=
  | AssertionError
  | ZeroDivisionError
  | ValueError
  | IndexError
  | FileNotFoundError.

Inductive result (A : Type) : Type :=
  | Ok (a : A)
  | Raise (e : exn).
Arguments Ok {A} a.
Arguments Raise {A} e.

Definition result_bind {A B} (r : result A) (f : A → result B) : result B :=
  match r with
  | Ok a => f a
  | Raise e => Raise e
  end.

(** [a // b] on Python integers: floor division, which is [Z.div]. *)
Definition floordiv (a b : Z) : result Z :=
  if decide (b = 0) then Raise ZeroDivisionError else Ok (a `div` b).

(** Number of items of a range with a positive step (CPython's
    [get_len_of_range]). *)
Definition range_len (lo hi step : Z) : Z :=
  if decide (lo < hi) then (hi - lo - 1) `div` step + 1 else 0.

(** The items of [range(start, stop, step)] for a non-zero step. *)
Definition range_items (start stop step : Z) : list Z :=
  let len := if decide (0 < step) then range_len start stop step
             else range_len stop start (- step) in
  (λ i : nat, start + Z.of_nat i * step) <$> seq 0 (Z.to_nat len).

(** [list(range(start, stop, step))]: a zero step is a [ValueError]. *)
Definition range3 (start stop step : Z) : result (list Z) :=
  if decide (step = 0) then Raise ValueError
  else Ok (range_items start stop step).

(** [range(stop)], that is [range(0, stop, 1)]. *)
Definition range (stop : Z) : list Z := range_items 0 stop 1.

(** [l[i]] on a list: a negative index counts from the end, an index out of
    range is an [IndexError]. *)
Definition getitem {A} (l : list A) (i : Z) : result A :=
  let j := if decide (i < 0) then i + Z.of_nat (length l) else i in
  if decide (j < 0) then Raise IndexError
  else match l !! Z.to_nat j with
       | Some x => Ok x
       | None => Raise IndexError
       end.

(** Adjustment of one slice bound to a sequence of length [len]. *)
Definition clamp (len i : Z) : Z :=
  if decide (i < 0) then Z.max (i + len) 0 else Z.min i len.

(** [l[a:b]] on a sequence: bounds are clamped, never an error. *)
Definition slice {A} (l : list A) (a b : Z) : list A :=
  let len := Z.of_nat (length l) in
  let lo := clamp len a in
  let hi := clamp len b in
  take (Z.to_nat (hi - lo)) (drop (Z.to_nat lo) l).

(** ['{}'.format(i)] for an integer [i]: its decimal representation. *)
Definition format_int (i : Z) : string := pretty i.

Definition startswith_sep (s : string) : bool :=
  match s with
  | String c _ => bool_decide (c = "/"%char)
  | EmptyString => false
  end.

Fixpoint endswith_sep (s : string) : bool :=
  match s with
  | EmptyString => false
  | String c EmptyString => bool_decide (c = "/"%char)
  | String _ s' => endswith_sep s'
  end.

(** [os.path.join(a, b)] on a POSIX system. *)
Definition path_join (a b : string) : string :=
  if startswith_sep b then b
  else if bool_decide (a = "") || endswith_sep a then a +:+ b
  else a +:+ "/" +:+ b.

End Py.

Export Py.

(** ** Arrays, artifacts and the world the cells act on *)

Section World.

Context {scalar : Type}.

(** An [NDArray] of one or two dimensions; its first axis is the list. *)
Inductive ndarray : Type :=
  | Vector (vals : list scalar)
  | Matrix (rows : list (list scalar)).

(** [len(a)]: the size of the first axis. *)
Definition nd_len (a : ndarray) : Z :=
  match a with
  | Vector v => Z.of_nat (length v)
  | Matrix m => Z.of_nat (length m)
  end.

(** [a[lo:hi]]: a slice along the first axis, with the bounds clamped as
    for a Python sequence. *)
Definition nd_slice (a : ndarray) (lo hi : Z) : ndarray :=
  match a with
  | Vector v => Vector (slice v lo hi)
  | Matrix m => Matrix (slice m lo hi)
  end.

(** What [mx.nd.save] serialises: a dictionary from names to arrays. *)
Abbreviation artifact := (gmap string ndarray).

(** Observable effects, in the order in which they happen. *)
Inductive event : Type :=
  | EvSave (path : string) (a : artifact)
  | EvPrint (line : string)
  | EvUpload (path bucket key : string) (a : artifact).

Record world : Type := World {
  local_fs : gmap string artifact;
  s3_objects : gmap (string * string) artifact;
  events : list event
}.

Definition empty_world : world := World ∅ ∅ [].

(** Computations that may raise and that act on the world. *)
Definition M (A : Type) : Type := world → result A * world.

Definition ret {A} (a : A) : M A := λ w, (Ok a, w).

Definition bind {A B} (m : M A) (f : A → M B) : M B :=
  λ w, match m w with
       | (Ok a, w') => f a w'
       | (Raise e, w') => (Raise e, w')
       end.

Definition lift {A} (r : result A) : M A := λ w, (r, w).

Definition py_assert (b : bool) : M unit :=
  lift (if b then Ok tt else Raise AssertionError).

(** [mx.nd.save(path, d)]: writes (or overwrites) the local file. *)
Definition nd_save (path : string) (d : artifact) : M unit :=
  λ w, (Ok tt, World (<[path := d]> (local_fs w)) (s3_objects w)
                     (events w ++ [EvSave path d])).

Definition print (line : string) : M unit :=
  λ w, (Ok tt, World (local_fs w) (s3_objects w) (events w ++ [EvPrint line])).

(** [s3.upload_file(path, bucket, key)]: a blocking transfer of the local
    file's current contents to the object [key] of [bucket]. *)
Definition upload_file (path bucket key : string) : M unit :=
  λ w, match local_fs w !! path with
       | None => (Raise FileNotFoundError, w)
       | Some d =>
           (Ok tt, World (local_fs w) (<[(bucket, key) := d]> (s3_objects w))
                         (events w ++ [EvUpload path bucket key d]))
       end.

(** A list comprehension whose body may raise. *)
Fixpoint comprehension {A B} (f : A → M B) (l : list A) : M (list B) :=
  match l with
  | [] => ret []
  | x :: l' => bind (f x) (λ y, bind (comprehension f l') (λ ys, ret (y :: ys)))
  end.

(** A [for] loop over a list. *)
Fixpoint for_each {A} (l : list A) (body : A → M unit) : M unit :=
  match l with
  | [] => ret tt
  | x :: l' => bind (body x) (λ _, for_each l' body)
  end.

End World.

Arguments ndarray : clear implicits.
Arguments event : clear implicits.
Arguments world : clear implicits.
Arguments M : clear implicits.

Abbreviation artifact scalar := (gmap string (ndarray scalar)).

Global Instance M_ret {scalar} : MRet (M scalar) := @ret scalar.
Global Instance M_bind {scalar} : MBind (M scalar) :=
  λ A B f m, bind m f.

(** ** The notebook, first revision (part_000) *)

Module Rev0.

Section Cells.

Context {scalar : Type}.

Definition bucket_name : string := "eduthie-sagemaker-1".
Definition prefix : string := "distributed_training_gluon_lab/".
Definition local_dir : string := "/tmp".

Definition upload_filename (target_folder file_name : string) : string :=
  prefix +:+ "/" +:+ target_folder +:+ "/" +:+ file_name.

Definition save_and_upload (X y : ndarray scalar) (target_folder : string)
    (i : Z) : M scalar unit :=
  let file_name := format_int i in
  let local_path := path_join local_dir file_name in
  nd_save local_path {[ "X" := X; "y" := y ]};;
  print ("Created local file " +:+ local_path);;
  let upload_filename := upload_filename target_folder file_name in
  print ("Uploading to " +:+ upload_filename);;
  upload_file local_path bucket_name upload_filename.

Definition split_and_upload (X y : ndarray scalar) (k : Z)
    (target_folder : string) : M scalar unit :=
  let n := nd_len X in
  q ← lift (floordiv n k);
  py_assert (bool_decide (q * k = n)%Z);;
  q ← lift (floordiv n k);
  idx ← lift (range3 0 (n + 1) q);
  X_shards ← comprehension (λ i,
      a ← lift (getitem idx i);
      b ← lift (getitem idx (i + 1));
      mret (nd_slice X a b)) (range k);
  y_shards ← comprehension (λ i,
      a ← lift (getitem idx i);
      b ← lift (getitem idx (i + 1));
      mret (nd_slice y a b)) (range k);
  for_each (zip (zip X_shards y_shards) (range k))
    (λ '(X, y, i), save_and_upload X y target_folder i).

End Cells.

End Rev0.

(** ** The notebook, second revision (part_001) *)

Module Rev1.

Section Cells.

Context {scalar : Type}.

Definition bucket_name : string := "eduthie-sagemaker-1".
(** The notebook's comment on this variable: a prefix for the folder name,
    including the trailing slash. *)
Definition prefix : string := "distributed_training_gluon_lab/".
Definition local_dir : string := "/tmp".

Definition upload_filename (target_folder file_name : string) : string :=
  prefix +:+ target_folder +:+ "/" +:+ file_name.

Definition save_and_upload (X y : ndarray scalar) (target_folder : string)
    (i : Z) : M scalar unit :=
  let file_name := format_int i in
  let local_path := path_join local_dir file_name in
  nd_save local_path {[ "X" := X; "y" := y ]};;
  print ("Number of examples " +:+ format_int (nd_len X));;
  print ("Created local file " +:+ local_path);;
  let upload_filename := upload_filename target_folder file_name in
  print ("Uploading to " +:+ upload_filename);;
  upload_file local_path bucket_name upload_filename.

Definition split_and_upload (X y : ndarray scalar) (k : Z)
    (target_folder : string) : M scalar unit :=
  let n := nd_len X in
  q ← lift (floordiv n k);
  py_assert (bool_decide (q * k = n)%Z);;
  q ← lift (floordiv n k);
  idx ← lift (range3 0 (n + 1) q);
  X_shards ← comprehension (λ i,
      a ← lift (getitem idx i);
      b ← lift (getitem idx (i + 1));
      mret (nd_slice X a b)) (range k);
  y_shards ← comprehension (λ i,
      a ← lift (getitem idx i);
      b ← lift (getitem idx (i + 1));
      mret (nd_slice y a b)) (range k);
  for_each (zip (zip X_shards y_shards) (range k))
    (λ '(Xi, yi, i), save_and_upload Xi yi target_folder i).

End Cells.

End Rev1.

(** The two revisions, by the name of the file each one lives in. *)
Inductive revision : Set := part_000 | part_001.

Definition save_and_upload {scalar} (r : revision) :
    ndarray scalar → ndarray scalar → string → Z → M scalar unit :=
  match r with
  | part_000 => Rev0.save_and_upload
  | part_001 => Rev1.save_and_upload
  end.

Definition split_and_upload {scalar} (r : revision) :
    ndarray scalar → ndarray scalar → Z → string → M scalar unit :=
  match r with
  | part_000 => Rev0.split_and_upload
  | part_001 => Rev1.split_and_upload
  end.

Definition upload_filename (r : revision) : string → string → string :=
  match r with
  | part_000 => Rev0.upload_filename
  | part_001 => Rev1.upload_filename
  end.

(** ** Closed forms and observations of a run *)

Section Observations.

Context {scalar : Type}.
Implicit Types (X y : ndarray scalar) (w : world scalar) (r : revision).

Local Open Scope Z_scope.

(** The dictionary a shard is serialised as. *)
Definition shard_artifact X y : artifact scalar := {[ "X" := X; "y" := y ]}.

Definition local_path (i : Z) : string := path_join "/tmp" (format_int i).

(** The lines a call of [save_and_upload] prints between its write and its
    transfer. *)
Definition diagnostics r X (folder : string) (i : Z) : list (event scalar) :=
  match r with
  | part_000 =>
      [EvPrint ("Created local file " +:+ local_path i);
       EvPrint ("Uploading to " +:+ upload_filename r folder (format_int i))]
  | part_001 =>
      [EvPrint ("Number of examples " +:+ format_int (nd_len X));
       EvPrint ("Created local file " +:+ local_path i);
       EvPrint ("Uploading to " +:+ upload_filename r folder (format_int i))]
  end.

Definition shard_events r (folder : string) (t : ndarray scalar * ndarray scalar * Z)
    : list (event scalar) :=
  let '(X, y, i) := t in
  EvSave (local_path i) (shard_artifact X y)
  :: diagnostics r X folder i
  ++ [EvUpload (local_path i) "eduthie-sagemaker-1"
        (upload_filename r folder (format_int i)) (shard_artifact X y)].

Definition after_shard r (folder : string) w
    (t : ndarray scalar * ndarray scalar * Z) : world scalar :=
  World (<[local_path t.2 := shard_artifact t.1.1 t.1.2]> (local_fs w))
        (<[("eduthie-sagemaker-1", upload_filename r folder (format_int t.2))
            := shard_artifact t.1.1 t.1.2]> (s3_objects w))
        (events w ++ shard_events r folder t).

(** The body shared by the two revisions of [split_and_upload]. *)
Definition split_with
    (sau : ndarray scalar → ndarray scalar → string → Z → M scalar unit)
    X y (k : Z) (target_folder : string) : M scalar unit :=
  let n := nd_len X in
  q ← lift (floordiv n k);
  py_assert (bool_decide (q * k = n)%Z);;
  q ← lift (floordiv n k);
  idx ← lift (range3 0 (n + 1) q);
  X_shards ← comprehension (λ i,
      a ← lift (getitem idx i);
      b ← lift (getitem idx (i + 1));
      mret (nd_slice X a b)) (range k);
  y_shards ← comprehension (λ i,
      a ← lift (getitem idx i);
      b ← lift (getitem idx (i + 1));
      mret (nd_slice y a b)) (range k);
  for_each (zip (zip X_shards y_shards) (range k))
    (λ '(Xi, yi, i), sau Xi yi target_folder i).

(** The shards of a dataset cut every [s] rows, with their indices. *)
Definition shards_by (s : Z) (k : nat) X y
    : list (ndarray scalar * ndarray scalar * Z) :=
  (λ i : nat, (nd_slice X (Z.of_nat i * s) ((Z.of_nat i + 1) * s),
               nd_slice y (Z.of_nat i * s) ((Z.of_nat i + 1) * s),
               Z.of_nat i)) <$> seq 0 k.

(** *** Projections of a trace *)

(** The local writes of a trace: path and contents, in order. *)
Definition saves (tr : list (event scalar)) : list (string * artifact scalar) :=
  omap (λ e, match e with EvSave p a => Some (p, a) | _ => None end) tr.

(** The transfers of a trace: local path, bucket, key and contents. *)
Definition uploads (tr : list (event scalar))
    : list (string * string * string * artifact scalar) :=
  omap (λ e, match e with EvUpload p b key a => Some (p, b, key, a) | _ => None end) tr.


Definition is_storage (e : event scalar) : bool :=
  match e with
  | EvPrint _ => false
  | _ => true
  end.

(** The trace without the printed lines. *)
Definition storage (tr : list (event scalar)) : list (event scalar) :=
  List.filter is_storage tr.

(** The events a run adds to the world it starts from. *)
Definition new_events w w' : list (event scalar) :=
  drop (length (events w)) (events w').

(** [l] cut into [k] consecutive pieces of [s] items. *)
Definition chunks {A} (s k : nat) (l : list A) : list (list A) :=
  (λ i : nat, take s (drop (i * s) l)) <$> seq 0 k.

End Observations.

(** ** How the traces of the two revisions may differ *)

Section TraceRelation.

Context {scalar : Type}.



End TraceRelation.

(** ** The training entry point *)

Module Training.

(** Modelled from the spec: the policy of a distributed synchronization
    mode (synchronous, device-synchronous or asynchronous). The module
    [multiple_regression.py], which defines [train], is missing. *)
Inductive sync_policy : Set :=
  | Synchronous
  | DeviceSynchronous
  | Asynchronous.

(** Modelled from the spec: the gradient-synchronization mode handed to the
    optimizer, local (single device) or distributed. *)
Inductive sync_mode : Set :=
  | Local
  | Distributed (p : sync_policy).

(** Modelled from the spec: the mode selection of the missing [train]. If
    more than one host identifier is present a distributed mode is selected,
    otherwise the local one. Which distributed policy is used is left to
    the caller of this model. *)
Definition select_sync_mode (policy : sync_policy) (hosts : list string)
    : sync_mode :=
  if decide (1 < length hosts) then Distributed policy else Local.

Section Train.

Context {params batch loss rate : Type}.

(** Modelled from the spec: the configuration map, with its three
    recognised entries. *)
Record hyperparameters : Type := Hyperparameters {
  batch_size : Z;
  epochs : nat;
  learning_rate : option rate
}.

(** One optimizer step on one batch under the selected mode: the new
    parameters and the batch's loss. *)
Variable sgd_step : sync_mode → option rate → params → batch → params * loss.

(** The average of a non-empty list of batch losses. *)
Variable average : list loss → loss.

(** What a run reports: the selected mode, and either the per-epoch losses
    or the error the run stopped with. *)
Record report : Type := Report {
  kvstore : sync_mode;
  outcome : result (list (nat * loss))
}.

(** Modelled from the spec: one pass over the locally available batches,
    one optimizer step per batch, collecting the batch losses in order. *)
Definition run_epoch (mode : sync_mode) (lr : option rate) (θ : params)
    (batches : list batch) : params * list loss :=
  foldl (λ acc b, let '(θ', l) := sgd_step mode lr acc.1 b in (θ', acc.2 ++ [l]))
        (θ, []) batches.

(** Modelled from the spec: the epoch's average loss, which does not exist
    when there is no batch. *)
Definition epoch_loss (losses : list loss) : result loss :=
  match losses with
  | [] => Raise ZeroDivisionError
  | _ => Ok (average losses)
  end.

(** Modelled from the spec: the epoch loop of the missing [train], whose
    sole termination condition is the epoch count; [e] is the number of the
    epoch about to run. *)
Fixpoint epoch_loop (remaining e : nat) (mode : sync_mode) (lr : option rate)
    (θ : params) (batches : list batch) : result (list (nat * loss)) :=
  match remaining with
  | O => Ok []
  | S remaining' =>
      let '(θ', losses) := run_epoch mode lr θ batches in
      result_bind (epoch_loss losses) (λ l,
        result_bind (epoch_loop remaining' (S e) mode lr θ' batches) (λ rest,
          Ok ((e, l) :: rest)))
  end.

(** Modelled from the spec: the missing entry point
    [train(hyperparameters, channel_input_dirs, num_gpus, hosts,
    current_host)]. The initial parameters and the batches found in the
    channel directories are inputs of the model. *)
Definition train (policy : sync_policy) (θ0 : params) (batches : list batch)
    (hp : hyperparameters) (channel_input_dirs : gmap string string)
    (num_gpus : Z) (hosts : list string) (current_host : string) : report :=
  let mode := select_sync_mode policy hosts in
  Report mode (epoch_loop (epochs hp) 0 mode (learning_rate hp) θ0 batches).

End Train.

End Training.

(** ** Concrete inputs *)

Module Examples.

Local Open Scope Z_scope.

(** A dataset of four rows of width two, with its labels. *)
Definition X4 : list (list Z) := [[1; 2]; [3; 4]; [5; 6]; [7; 8]].
Definition y4 : list Z := [10; 20; 30; 40].

(** A dataset of one row. *)
Definition X1 : list (list Z) := [[1; 2]].
Definition y1 : list Z := [10].

(** The world after sharding [X4] in two with the second revision. *)
Definition w2 : world Z :=
  (split_and_upload part_001 (Matrix X4) (Vector y4) 2 "train" empty_world).2.

(** A stand-in for one optimizer step and for the average of the losses. *)
Definition toy_step (mode : Training.sync_mode) (lr : option Z) (θ b : Z)
    : Z * Z := (θ + b, b).
Definition toy_average (losses : list Z) : Z := foldr Z.add 0 losses.
Definition toy_hyperparameters : Training.hyperparameters :=
  Training.Hyperparameters 64 10 (Some 1).

End Examples.

(** ** The cells around the two routines *)

(** [l[a:]] on a sequence: the start is clamped, the slice runs to the end. *)
Definition slice_from {A} (l : list A) (a : Z) : list A :=
  drop (Z.to_nat (clamp (Z.of_nat (length l)) a)) l.

(** [a[lo:]] along the first axis. *)
Definition nd_slice_from {scalar} (a : ndarray scalar) (lo : Z) : ndarray scalar :=
  match a with
  | Vector v => Vector (slice_from v lo)
  | Matrix m => Matrix (slice_from m lo)
  end.

(** Whether a string contains the path separator. *)
Fixpoint has_sep (s : string) : bool :=
  match s with
  | EmptyString => false
  | String c s' => bool_decide (c = "/"%char) || has_sep s'
  end.

(** The cell of part_000 that splits the dataset into a training and a test
    part and uploads them. [split_index] stands for the value of
    [int(num_examples*train_frac)], a floating point product. *)
Module Cell0.

Section Cell.

Context {scalar : Type}.

Definition upload_cell (X y : ndarray scalar) (split_index : Z) : M scalar unit :=
  let X_train := nd_slice X 0 split_index in
  let X_test := nd_slice_from X split_index in
  let y_train := nd_slice y 0 split_index in
  let y_test := nd_slice_from y split_index in
  print (format_int (nd_len X_train));;
  print (format_int (nd_len X_test));;
  Rev0.split_and_upload X_train y_train 5 "train";;
  Rev0.save_and_upload X_test y_test "test" 0.

End Cell.

(** The locations handed to the estimator's [fit]. *)
Definition train_data_location : string :=
  "s3://" +:+ Rev0.bucket_name +:+ "/" +:+ Rev0.prefix +:+ "train".
Definition test_data_location : string :=
  "s3://" +:+ Rev0.bucket_name +:+ "/" +:+ Rev0.prefix +:+ "test".

End Cell0.

(** The same cell in part_001, which first uploads a full copy of the
    training part. *)
Module Cell1.

Definition num_splits : Z := 5.

Section Cell.

Context {scalar : Type}.

Definition upload_cell (X y : ndarray scalar) (split_index : Z) : M scalar unit :=
  let X_train := nd_slice X 0 split_index in
  let X_test := nd_slice_from X split_index in
  let y_train := nd_slice y 0 split_index in
  let y_test := nd_slice_from y split_index in
  print (format_int (nd_len X_train));;
  print (format_int (nd_len X_test));;
  Rev1.save_and_upload X_train y_train "train/full" 0;;
  Rev1.split_and_upload X_train y_train num_splits "train";;
  Rev1.save_and_upload X_test y_test "test" 0.

End Cell.

Definition train_data_location : string :=
  "s3://" +:+ Rev1.bucket_name +:+ "/" +:+ Rev1.prefix +:+ "train".
Definition test_data_location : string :=
  "s3://" +:+ Rev1.bucket_name +:+ "/" +:+ Rev1.prefix +:+ "test".
(** The training channel of the single-host estimator. *)
Definition full_train_data_location : string :=
  "s3://" +:+ Rev1.bucket_name +:+ "/" +:+ Rev1.prefix +:+ "train/full".

End Cell1.

Definition upload_cell {scalar} (r : revision) :
    ndarray scalar → ndarray scalar → Z → M scalar unit :=
  match r with
  | part_000 => Cell0.upload_cell
  | part_001 => Cell1.upload_cell
  end.

(** The world once the cell has printed the two lengths. *)
Definition after_lengths {scalar} (X y : ndarray scalar) (split_index : Z)
    (w : world scalar) : world scalar :=
  World (local_fs w) (s3_objects w)
    (events w
     ++ [EvPrint (format_int (nd_len (nd_slice X 0 split_index)));
         EvPrint (format_int (nd_len (nd_slice_from X split_index)))]).

(** The cell that generates the labels. The floating point operations and
    constants are parameters; a selection that MXNet rejects is [None]. *)
Section RealFn.

Context {scalar : Type}.
Variables (mul sub add : scalar → scalar → scalar).
Variables (c_2 c_3_4 c_4_2 : scalar).

(** [X[:, j]] for a non-negative [j]: the [j]-th entry of every row. MXNet
    rejects the selection on a matrix without rows. *)
Definition column (X : ndarray scalar) (j : nat) : option (list scalar) :=
  match X with
  | Matrix [] => None
  | Matrix rows => mapM (λ row : list scalar, row !! j) rows
  | Vector _ => None
  end.

(** [2 * X[:, 0] - 3.4 * X[:, 1] + 4.2]; the two operands of the
    subtraction are columns of the same matrix, hence of one shape. *)
Definition real_fn (X : ndarray scalar) : option (ndarray scalar) :=
  x0 ← column X 0;
  x1 ← column X 1;
  Some (Vector ((λ d, add d c_4_2)
                  <$> zip_with sub (mul c_2 <$> x0) (mul c_3_4 <$> x1))).

End RealFn.

(** More concrete inputs. *)
Module MoreExamples.

Local Open Scope Z_scope.

(** Six rows: five for training, one for testing. *)
Definition X6 : list (list Z) := [[1; 2]; [3; 4]; [5; 6]; [7; 8]; [9; 10]; [11; 12]].
Definition y6 : list Z := [10; 20; 30; 40; 50; 60].

End MoreExamples.

(** ** Facts about the Python primitives *)

Section PyFacts.

Local Open Scope Z_scope.

Lemma floordiv_nonzero (n k : Z) : k ≠ 0 → floordiv n k = Ok (n `div` k).
Proof. intros Hk. unfold floordiv. by rewrite decide_False. Qed.

(** The assertion's condition is exactly divisibility. *)
Lemma exact_division_iff (n k : Z) : k ≠ 0 → n `div` k * k = n ↔ (k | n).
Proof.
  intros Hk. split.
  - intros H. by exists (n `div` k).
  - intros [z ->]. by rewrite Z.div_mul.
Qed.

Lemma range_items_boundaries (s : Z) (k : nat) :
  0 < s →
  range_items 0 (Z.of_nat k * s + 1) s = (λ i : nat, Z.of_nat i * s) <$> seq 0 (S k).
Proof.
  intros Hs. unfold range_items, range_len.
  rewrite decide_True by done. rewrite decide_True by nia.
  replace (Z.of_nat k * s + 1 - 0 - 1) with (Z.of_nat k * s) by lia.
  rewrite Z.div_mul by lia.
  replace (Z.to_nat (Z.of_nat k + 1)) with (S k) by lia.
  apply list_fmap_ext. intros _ i _. lia.
Qed.

Lemma range_of_nat (k : nat) : range (Z.of_nat k) = Z.of_nat <$> seq 0 k.
Proof.
  unfold range, range_items, range_len. rewrite decide_True by done.
  destruct (decide (0 < Z.of_nat k)) as [Hk|Hk].
  - rewrite Z.div_1_r. replace (Z.to_nat (Z.of_nat k - 0 - 1 + 1)) with k by lia.
    apply list_fmap_ext. intros _ i _. lia.
  - by replace k with 0%nat by lia.
Qed.

Lemma range_nonpos (k : Z) : k ≤ 0 → range k = [].
Proof.
  intros Hk. unfold range, range_items, range_len.
  rewrite decide_True by done. by rewrite decide_False by lia.
Qed.

Lemma getitem_lookup {A} (l : list A) (i : nat) (x : A) :
  l !! i = Some x → getitem l (Z.of_nat i) = Ok x.
Proof.
  intros Hi. unfold getitem.
  destruct (decide (Z.of_nat i < 0)) as [?|_]; [lia|].
  destruct (decide (Z.of_nat i < 0)) as [?|_]; [lia|].
  by rewrite Nat2Z.id, Hi.
Qed.

Lemma slice_take_drop {A} (l : list A) (a b : nat) :
  (a ≤ b)%nat → (b ≤ length l)%nat →
  slice l (Z.of_nat a) (Z.of_nat b) = take (b - a) (drop a l).
Proof.
  intros Hab Hb. unfold slice, clamp.
  rewrite !decide_False by lia.
  rewrite !Z.min_l by lia. f_equal; [lia|]. f_equal. lia.
Qed.

(** A decimal representation never starts with the path separator. *)
Lemma pretty_N_go_no_sep (x : N) (s : string) :
  startswith_sep s = false → startswith_sep (pretty_N_go x s) = false.
Proof.
  revert s. induction (N.lt_wf_0 x) as [x _ IH]. intros s Hs.
  destruct (decide (x = 0)%N) as [->|Hx].
  - by rewrite pretty_N_go_0.
  - rewrite pretty_N_go_step by lia. apply IH.
    + apply N.div_lt; lia.
    + simpl. apply bool_decide_eq_false.
      unfold pretty_N_char. by repeat case_match.
Qed.

Lemma format_int_no_sep (i : Z) : startswith_sep (format_int i) = false.
Proof.
  unfold format_int, pretty, pretty_Z.
  destruct i as [|p|p]; [done| |done].
  unfold pretty, pretty_positive, pretty, pretty_N.
  rewrite decide_False by done. by apply pretty_N_go_no_sep.
Qed.

Lemma path_join_tmp (i : Z) : path_join "/tmp" (format_int i) = "/tmp/" +:+ format_int i.
Proof. unfold path_join. by rewrite format_int_no_sep. Qed.

Lemma path_join_tmp_inj (i j : Z) :
  path_join "/tmp" (format_int i) = path_join "/tmp" (format_int j) → i = j.
Proof.
  rewrite !path_join_tmp. intros H.
  apply (inj (String.app "/tmp/")) in H. by apply (inj pretty) in H.
Qed.

End PyFacts.

(** ** What one call does to the world *)

Section Runs.

Context {scalar : Type}.
Implicit Types (X y : ndarray scalar) (w : world scalar) (r : revision).
Implicit Types (l : list (ndarray scalar * ndarray scalar * Z)).

Local Open Scope Z_scope.

Lemma save_and_upload_run r X y folder i w :
  save_and_upload r X y folder i w = (Ok tt, after_shard r folder w (X, y, i)).
Proof.
  destruct r; unfold save_and_upload, Rev0.save_and_upload,
    Rev1.save_and_upload, after_shard, mbind, M_bind, bind, nd_save, print,
    upload_file; simpl;
    rewrite lookup_insert_eq; simpl; by rewrite <-?(assoc_L (++)).
Qed.

Lemma run_bind {A B} (m : M scalar A) (f : A → M scalar B) w :
  (m ≫= f) w = match m w with
               | (Ok a, w') => f a w'
               | (Raise e, w') => (Raise e, w')
               end.
Proof. done. Qed.

Lemma run_lift_ok {A B} (a : A) (f : A → M scalar B) w :
  (lift (Ok a) ≫= f) w = f a w.
Proof. done. Qed.

Lemma run_assert {B} (b : bool) (f : unit → M scalar B) w :
  (py_assert b ≫= f) w = if b then f tt w else (Raise AssertionError, w).
Proof. by destruct b. Qed.

Lemma for_each_total {A} (l : list A) (body : A → M scalar unit)
    (step : world scalar → A → world scalar) w :
  (∀ x w', body x w' = (Ok tt, step w' x)) →
  for_each l body w = (Ok tt, foldl step w l).
Proof.
  intros Hbody. revert w. induction l as [|x l IH]; intros w; [done|].
  simpl. unfold bind. by rewrite Hbody, IH.
Qed.

Lemma comprehension_pure {A B} (f : A → M scalar B) (g : A → B) (l : list A) w :
  (∀ x, x ∈ l → f x w = (Ok (g x), w)) →
  comprehension f l w = (Ok (g <$> l), w).
Proof.
  induction l as [|x l IH]; intros Hf; [done|].
  simpl. unfold bind. rewrite Hf by left.
  rewrite IH; [done|]. intros x' Hx'. apply Hf. by right.
Qed.

Lemma zip3_fmap {A B C D} (f : A → B) (g : A → C) (h : A → D) (l : list A) :
  zip (zip (f <$> l) (g <$> l)) (h <$> l) = (λ x, (f x, g x, h x)) <$> l.
Proof. induction l as [|x l IH]; [done|]. csimpl. by f_equal. Qed.

Lemma split_and_upload_split_with r :
  @split_and_upload scalar r = split_with (save_and_upload r).
Proof. by destruct r. Qed.

Lemma nd_len_nonneg X : 0 ≤ nd_len X.
Proof. destruct X; simpl; lia. Qed.

Lemma split_zero_shards r X y folder w :
  split_and_upload r X y 0 folder w = (Raise ZeroDivisionError, w).
Proof. by destruct r. Qed.

Lemma split_indivisible r X y k folder w :
  k ≠ 0 → ¬ (k | nd_len X) →
  split_and_upload r X y k folder w = (Raise AssertionError, w).
Proof.
  intros Hk Hdiv. rewrite split_and_upload_split_with. unfold split_with.
  rewrite floordiv_nonzero, run_lift_ok, run_assert by done.
  rewrite bool_decide_eq_false_2; [done|]. by rewrite exact_division_iff.
Qed.

Lemma split_empty_dataset r X y k folder w :
  k ≠ 0 → nd_len X = 0 →
  split_and_upload r X y k folder w = (Raise ValueError, w).
Proof.
  intros Hk Hn. rewrite split_and_upload_split_with. unfold split_with.
  rewrite floordiv_nonzero, run_lift_ok, run_assert by done.
  rewrite Hn, Z.div_0_l by done.
  by rewrite bool_decide_eq_true_2.
Qed.

Lemma split_negative_count r X y k folder w :
  k < 0 → (k | nd_len X) → nd_len X ≠ 0 →
  split_and_upload r X y k folder w = (Ok tt, w).
Proof.
  intros Hk Hdiv Hn. rewrite split_and_upload_split_with. unfold split_with.
  rewrite floordiv_nonzero, run_lift_ok, run_assert by lia.
  rewrite bool_decide_eq_true_2 by (apply exact_division_iff; [lia|done]).
  rewrite run_lift_ok.
  unfold range3. rewrite decide_False.
  - by rewrite run_lift_ok, range_nonpos by lia.
  - intros Hq. apply exact_division_iff in Hdiv; [|lia]. rewrite Hq in Hdiv. lia.
Qed.

Lemma split_and_upload_run r X y (k : nat) (s : Z) folder w :
  (1 ≤ k)%nat → 1 ≤ s → nd_len X = Z.of_nat k * s →
  split_and_upload r X y (Z.of_nat k) folder w
  = (Ok tt, foldl (after_shard r folder) w (shards_by s k X y)).
Proof.
  intros Hk Hs Hn. rewrite split_and_upload_split_with. unfold split_with.
  rewrite floordiv_nonzero by lia.
  assert (nd_len X `div` Z.of_nat k = s) as ->.
  { rewrite Hn, Z.mul_comm. apply Z.div_mul. lia. }
  rewrite run_lift_ok, run_assert, bool_decide_eq_true_2, run_lift_ok by lia.
  unfold range3. rewrite decide_False by lia.
  rewrite Hn, range_items_boundaries, range_of_nat, run_lift_ok by lia.
  set (idx := (λ i : nat, Z.of_nat i * s) <$> seq 0 (S k)).
  assert (∀ i : nat, (i ≤ k)%nat → getitem idx (Z.of_nat i) = Ok (Z.of_nat i * s))
    as Hidx.
  { intros i Hi. apply getitem_lookup. unfold idx.
    rewrite list_lookup_fmap, lookup_seq_lt by lia. done. }
  assert (∀ (a : ndarray scalar) w',
    comprehension (λ i,
      lo ← lift (getitem idx i);
      hi ← lift (getitem idx (i + 1));
      mret (nd_slice a lo hi)) (Z.of_nat <$> seq 0 k) w'
    = (Ok ((λ i, nd_slice a (i * s) ((i + 1) * s)) <$> (Z.of_nat <$> seq 0 k)), w'))
    as Hcomp.
  { intros a w'. apply comprehension_pure. intros i Hi.
    apply list_elem_of_fmap in Hi as (j & -> & Hj).
    apply elem_of_seq in Hj.
    rewrite Hidx, run_lift_ok by lia.
    replace (Z.of_nat j + 1) with (Z.of_nat (S j)) by lia.
    by rewrite Hidx, run_lift_ok by lia. }
  rewrite run_bind, Hcomp, run_bind, Hcomp.
  rewrite <-!list_fmap_compose.
  rewrite zip3_fmap.
  rewrite for_each_total with (step := after_shard r folder).
  - done.
  - intros [[Xi yi] i] w'. apply save_and_upload_run.
Qed.

Lemma chunks_S {A} (s k : nat) (l : list A) :
  chunks s (S k) l = take s l :: chunks s k (drop s l).
Proof.
  unfold chunks. simpl. f_equal.
  rewrite <-fmap_S_seq, <-list_fmap_compose.
  apply list_fmap_ext. intros _ i _. simpl.
  by rewrite drop_drop.
Qed.

Lemma concat_chunks {A} (s k : nat) (l : list A) :
  length l = (k * s)%nat → concat (chunks s k l) = l.
Proof.
  revert l. induction k as [|k IH]; intros l Hl.
  - by destruct l.
  - rewrite chunks_S. simpl. rewrite IH.
    + apply take_drop.
    + rewrite length_drop. lia.
Qed.

Lemma length_chunks {A} (s k : nat) (l : list A) : length (chunks s k l) = k.
Proof. unfold chunks. by rewrite length_fmap, length_seq. Qed.

Lemma lookup_chunks {A} (s k i : nat) (l : list A) :
  (i < k)%nat → chunks s k l !! i = Some (take s (drop (i * s) l)).
Proof.
  intros Hi. unfold chunks. by rewrite list_lookup_fmap, lookup_seq_lt by lia.
Qed.

Lemma Forall_length_chunks {A} (s k : nat) (l : list A) :
  length l = (k * s)%nat → Forall (λ c, length c = s) (chunks s k l).
Proof.
  intros Hl. apply Forall_fmap, Forall_forall. intros i Hi.
  apply elem_of_seq in Hi. simpl. rewrite length_take, length_drop. nia.
Qed.

(** *** The world after the loop *)

Lemma events_foldl r folder w l :
  events (foldl (after_shard r folder) w l)
  = events w ++ (l ≫= shard_events r folder).
Proof.
  revert w. induction l as [|t l IH]; intros w; simpl.
  - by rewrite (right_id_L [] (++)).
  - rewrite IH. simpl. by rewrite <-(assoc_L (++)).
Qed.

Lemma new_events_app w w' tr : events w' = events w ++ tr → new_events w w' = tr.
Proof. intros H. unfold new_events. by rewrite H, drop_app_length. Qed.

Lemma saves_shards r folder l :
  saves (l ≫= shard_events r folder)
  = (λ t, (local_path t.2, shard_artifact t.1.1 t.1.2)) <$> l.
Proof.
  induction l as [|[[X y] i] l IH]; [done|].
  rewrite bind_cons. unfold saves in *. rewrite omap_app, IH.
  by destruct r.
Qed.

Lemma uploads_shards r folder l :
  uploads (l ≫= shard_events r folder)
  = (λ t, (local_path t.2, "eduthie-sagemaker-1",
           upload_filename r folder (format_int t.2),
           shard_artifact t.1.1 t.1.2)) <$> l.
Proof.
  induction l as [|[[X y] i] l IH]; [done|].
  rewrite bind_cons. unfold uploads in *. rewrite omap_app, IH.
  by destruct r.
Qed.

Lemma storage_shards r folder l :
  storage (l ≫= shard_events r folder)
  = l ≫= (λ t, [EvSave (local_path t.2) (shard_artifact t.1.1 t.1.2);
                EvUpload (local_path t.2) "eduthie-sagemaker-1"
                  (upload_filename r folder (format_int t.2))
                  (shard_artifact t.1.1 t.1.2)]).
Proof.
  induction l as [|[[X y] i] l IH]; [done|].
  rewrite !bind_cons. unfold storage in *. rewrite List.filter_app, IH.
  by destruct r.
Qed.

Lemma lookup_bind_pairs {A B} (f g : A → B) (l : list A) (i : nat) :
  (l ≫= (λ x, [f x; g x])) !! (2 * i)%nat = f <$> l !! i
  ∧ (l ≫= (λ x, [f x; g x])) !! (2 * i + 1)%nat = g <$> l !! i.
Proof.
  revert i. induction l as [|x l IH]; intros i; [done|].
  rewrite bind_cons. destruct i as [|i]; [done|].
  replace (2 * S i)%nat with (S (S (2 * i))) by lia.
  simpl. apply IH.
Qed.

Lemma length_bind_pairs {A B} (f g : A → B) (l : list A) :
  length (l ≫= (λ x, [f x; g x])) = (2 * length l)%nat.
Proof.
  induction l as [|x l IH]; [done|]. rewrite bind_cons. simpl. rewrite IH. lia.
Qed.

(** Distinct shard indices mean distinct local files, so the loop leaves
    every shard's file in place. *)
Lemma local_fs_foldl r folder w (l : list (ndarray scalar * ndarray scalar * Z)) t :
  NoDup (l.*2) → t ∈ l →
  local_fs (foldl (after_shard r folder) w l) !! local_path t.2
  = Some (shard_artifact t.1.1 t.1.2).
Proof.
  induction l as [|t' l IH] using rev_ind; intros Hnd Ht.
  - by apply elem_of_nil in Ht.
  - rewrite foldl_app. simpl.
    rewrite fmap_app in Hnd. apply NoDup_app in Hnd as (Hl & Hfresh & _).
    apply elem_of_app in Ht as [Ht|Ht].
    + rewrite lookup_insert_ne; [by apply IH|].
      intros Heq. apply path_join_tmp_inj in Heq.
      apply (Hfresh t.2).
      * apply list_elem_of_fmap. by exists t.
      * rewrite <-Heq. simpl. left.
    + apply list_elem_of_singleton in Ht as ->. apply lookup_insert_eq.
Qed.

End Runs.

(** ** The sharding routine *)

Section Sharding.

Context {scalar : Type}.
Implicit Types (w : world scalar) (r : revision).

Local Open Scope Z_scope.

Lemma shards_by_chunks (X : list (list scalar)) (y : list scalar) (k s : nat) :
  length X = (k * s)%nat → length y = (k * s)%nat →
  shards_by (Z.of_nat s) k (Matrix X) (Vector y)
  = (λ i : nat, (Matrix (take s (drop (i * s) X)),
                 Vector (take s (drop (i * s) y)), Z.of_nat i)) <$> seq 0 k.
Proof.
  intros HX Hy. apply list_fmap_ext. intros j i Hi.
  apply lookup_seq in Hi as [-> Hi]. simpl.
  replace (Z.of_nat j * Z.of_nat s) with (Z.of_nat (j * s)) by lia.
  replace ((Z.of_nat j + 1) * Z.of_nat s) with (Z.of_nat ((j + 1) * s)) by lia.
  rewrite !slice_take_drop by nia.
  by replace ((j + 1) * s - j * s)%nat with s by lia.
Qed.

(** The shard size and count as natural numbers. *)
Lemma shard_count_size (n k : Z) :
  1 ≤ k → (k | n) → 1 ≤ n →
  1 ≤ n `div` k ∧ n = k * (n `div` k).
Proof.
  intros Hk [z ->] Hn. rewrite Z.div_mul by lia. nia.
Qed.

(** C1, as amended: for a non-empty dataset whose length [k >= 1] divides,
    a call succeeds and transfers exactly [k] artifacts; the [i]-th one holds
    rows [i*s .. (i+1)*s - 1] of [X] and of [y], where [s = len(X) / k]; the
    slices have [s] rows each, every row index lies in exactly one of the
    ranges, and concatenating the slices in index order gives back [X] and
    [y]. For 900000 rows and 5 shards every shard has 180000 rows. *)
Theorem split_and_upload_partition r (X : list (list scalar)) (y : list scalar)
    (k : Z) (folder : string) w :
  length X = length y → 1 ≤ k → (k | Z.of_nat (length X)) →
  (1 ≤ length X)%nat →
  ∃ w' (Xs : list (list (list scalar))) (ys : list (list scalar)),
    let s := Z.to_nat (Z.of_nat (length X) `div` k) in
    split_and_upload r (Matrix X) (Vector y) k folder w = (Ok tt, w')
    ∧ (uploads (new_events w w')).*2
      = zip_with (λ a b, shard_artifact (Matrix a) (Vector b)) Xs ys
    ∧ length Xs = Z.to_nat k ∧ length ys = Z.to_nat k
    ∧ (∀ i : nat, (i < Z.to_nat k)%nat →
         Xs !! i = Some (take s (drop (i * s) X))
         ∧ ys !! i = Some (take s (drop (i * s) y)))
    ∧ Forall (λ a, length a = s) Xs ∧ Forall (λ b, length b = s) ys
    ∧ concat Xs = X ∧ concat ys = y
    ∧ (∀ j : nat, (j < length X)%nat →
         ∃ i : nat, (i < Z.to_nat k)%nat ∧ (i * s ≤ j < (i + 1) * s)%nat
           ∧ ∀ i' : nat, (i' * s ≤ j < (i' + 1) * s)%nat → i' = i)
    ∧ (Z.of_nat (length X) = 900000 → k = 5 →
         Forall (λ a, Z.of_nat (length a) = 180000) Xs).
Proof.
  intros Hlen Hk Hdiv Hn.
  destruct (shard_count_size (Z.of_nat (length X)) k) as [Hs Hks]; [lia|done|lia|].
  set (s := Z.to_nat (Z.of_nat (length X) `div` k)).
  set (kn := Z.to_nat k).
  assert (length X = (kn * s)%nat) as HX.
  { unfold kn, s. rewrite <-Z2Nat.inj_mul by lia. by rewrite <-Hks, Nat2Z.id. }
  assert (length y = (kn * s)%nat) as Hy by lia.
  assert (1 ≤ s)%nat as Hs1 by (unfold s; lia).
  exists (foldl (after_shard r folder) w
            (shards_by (Z.of_nat s) kn (Matrix X) (Vector y))),
    (chunks s kn X), (chunks s kn y).
  simpl. fold s. fold kn. split_and!.
  - rewrite <-(Z2Nat.id k) by lia. fold kn.
    apply split_and_upload_run; [unfold kn; lia|lia|simpl; lia].
  - erewrite new_events_app by apply events_foldl.
    rewrite uploads_shards, shards_by_chunks by done.
    unfold chunks. rewrite <-!list_fmap_compose.
    rewrite zip_with_fmap_l, zip_with_fmap_r, zip_with_diag.
    by apply list_fmap_ext.
  - apply length_chunks.
  - apply length_chunks.
  - intros i Hi. by rewrite !lookup_chunks.
  - by apply Forall_length_chunks.
  - by apply Forall_length_chunks.
  - by apply concat_chunks.
  - by apply concat_chunks.
  - intros j Hj. exists (j `div` s)%nat.
    pose proof (Nat.div_mod_eq j s) as Hjs.
    pose proof (Nat.mod_upper_bound j s) as Hmod.
    split_and!.
    + apply Nat.Div0.div_lt_upper_bound. lia.
    + lia.
    + lia.
    + intros i' Hi'. nia.
  - intros HX' ->. eapply Forall_impl; [by apply Forall_length_chunks|].
    intros a Ha. simpl in Ha. rewrite Ha. unfold s. rewrite HX'.
    by vm_compute.
Qed.

(** C2, as amended: when [k] does not divide [len(X)] the call fails and
    leaves the world as it found it (no local file written, nothing
    transferred, nothing printed); the failure is the assertion's for a
    non-zero [k], and the division's [ZeroDivisionError] for [k = 0]. *)
Theorem split_and_upload_indivisible r (X y : ndarray scalar) (k : Z)
    (folder : string) w :
  ¬ (k | nd_len X) →
  split_and_upload r X y k folder w
  = (Raise (if decide (k = 0) then ZeroDivisionError else AssertionError), w).
Proof.
  intros Hdiv. destruct (decide (k = 0)) as [->|Hk].
  - apply split_zero_shards.
  - by apply split_indivisible.
Qed.

(** C10, as amended: for a non-empty dataset whose length [k >= 1] divides,
    the boundary list has exactly [k + 1] elements, both accesses [idx[i]]
    and [idx[i+1]] succeed for every [i] of [range(k)], and the call does not
    fail with an [IndexError]. *)
Theorem boundary_list_in_bounds r (X y : ndarray scalar) (k : Z)
    (folder : string) w :
  1 ≤ k → (k | nd_len X) → 1 ≤ nd_len X →
  ∃ idx : list Z,
    range3 0 (nd_len X + 1) (nd_len X `div` k) = Ok idx
    ∧ length idx = Z.to_nat (k + 1)
    ∧ (∀ i, i ∈ range k →
         ∃ a b, getitem idx i = Ok a ∧ getitem idx (i + 1) = Ok b)
    ∧ (split_and_upload r X y k folder w).1 = Ok tt.
Proof.
  intros Hk Hdiv Hn.
  destruct (shard_count_size (nd_len X) k) as [Hs Hks]; [lia|done|lia|].
  set (s := nd_len X `div` k) in *.
  set (kn := Z.to_nat k).
  assert (nd_len X = Z.of_nat kn * s) as HX by (unfold kn; lia).
  exists ((λ i : nat, Z.of_nat i * s) <$> seq 0 (S kn)). split_and!.
  - unfold range3. rewrite decide_False by lia.
    by rewrite HX, range_items_boundaries by lia.
  - rewrite length_fmap, length_seq. unfold kn. lia.
  - intros i Hi. rewrite <-(Z2Nat.id k) in Hi by lia. fold kn in Hi.
    rewrite range_of_nat in Hi.
    apply list_elem_of_fmap in Hi as (j & -> & Hj). apply elem_of_seq in Hj.
    exists (Z.of_nat j * s), (Z.of_nat (S j) * s). split.
    + apply getitem_lookup.
      by rewrite list_lookup_fmap, lookup_seq_lt by lia.
    + replace (Z.of_nat j + 1) with (Z.of_nat (S j)) by lia.
      apply getitem_lookup.
      by rewrite list_lookup_fmap, lookup_seq_lt by lia.
  - rewrite <-(Z2Nat.id k) by lia. fold kn.
    by rewrite (split_and_upload_run r X y kn s) by (unfold kn; lia).
Qed.

(** Every way a call can end; the revision plays no part in which. *)
Lemma split_and_upload_cases (X y : ndarray scalar) (k : Z) (folder : string) w :
  (k = 0 ∧ ∀ r, split_and_upload r X y k folder w = (Raise ZeroDivisionError, w))
  ∨ (k ≠ 0 ∧ ¬ (k | nd_len X)
     ∧ ∀ r, split_and_upload r X y k folder w = (Raise AssertionError, w))
  ∨ (k ≠ 0 ∧ nd_len X = 0
     ∧ ∀ r, split_and_upload r X y k folder w = (Raise ValueError, w))
  ∨ (k < 0 ∧ ∀ r, split_and_upload r X y k folder w = (Ok tt, w))
  ∨ (1 ≤ k ∧ 1 ≤ nd_len X `div` k
     ∧ ∀ r, split_and_upload r X y k folder w
            = (Ok tt, foldl (after_shard r folder) w
                        (shards_by (nd_len X `div` k) (Z.to_nat k) X y))).
Proof.
  destruct (decide (k = 0)) as [->|Hk].
  { left. split; [done|]. intros r. apply split_zero_shards. }
  destruct (decide (nd_len X `div` k * k = nd_len X)) as [Hdiv|Hdiv];
    rewrite exact_division_iff in Hdiv by done.
  2: { right; left. split_and!; [done..|]. intros r. by apply split_indivisible. }
  destruct (decide (nd_len X = 0)) as [Hn|Hn].
  { do 2 right; left. split_and!; [done..|]. intros r.
    by apply split_empty_dataset. }
  pose proof (nd_len_nonneg X).
  destruct (decide (k < 0)) as [Hneg|Hpos].
  { do 3 right; left. split; [done|]. intros r. by apply split_negative_count. }
  do 4 right.
  destruct (shard_count_size (nd_len X) k) as [Hs Hks]; [lia|done|lia|].
  split_and!; [lia|done|]. intros r.
  rewrite <-(Z2Nat.id k) at 1 by lia.
  apply split_and_upload_run; lia.
Qed.

(** C6, as amended: in a successful call the local file of shard [i] is
    [/tmp/<i>]; the paths of the shards of one call are pairwise distinct,
    and when the call returns every one of these files still holds the shard
    that was written to it, so no shard overwrites another one's file. *)
Theorem split_and_upload_local_files r (X y : ndarray scalar) (k : Z)
    (folder : string) w w' :
  split_and_upload r X y k folder w = (Ok tt, w') →
  (saves (new_events w w')).*1 = (λ i, "/tmp/" +:+ format_int i) <$> range k
  ∧ NoDup ((saves (new_events w w')).*1)
  ∧ ∀ p a, (p, a) ∈ saves (new_events w w') → local_fs w' !! p = Some a.
Proof.
  intros Hrun.
  destruct (split_and_upload_cases X y k folder w)
    as [[_ H]|[(_ & _ & H)|[(_ & _ & H)|[[Hk H]|(Hk & Hs & H)]]]];
    rewrite H in Hrun; simplify_eq.
  - rewrite range_nonpos by lia.
    erewrite new_events_app by (by rewrite (right_id_L [] (++))).
    split_and!; [done|constructor|]. intros p a Hp. by apply elem_of_nil in Hp.
  - erewrite new_events_app by apply events_foldl.
    rewrite saves_shards.
    set (l := shards_by _ _ X y).
    assert (l.*2 = range k) as Hidx.
    { unfold l, shards_by. rewrite <-list_fmap_compose.
      rewrite <-(Z2Nat.id k) at 2 by lia. by rewrite range_of_nat. }
    assert (NoDup (l.*2)) as Hnd.
    { rewrite Hidx, <-(Z2Nat.id k), range_of_nat by lia.
      apply NoDup_fmap; [apply _|apply NoDup_seq]. }
    assert (((λ t : ndarray scalar * ndarray scalar * Z,
               (local_path t.2, shard_artifact t.1.1 t.1.2)) <$> l).*1
            = (λ i, "/tmp/" +:+ format_int i) <$> range k) as Hpaths.
    { rewrite <-Hidx, <-!list_fmap_compose. apply list_fmap_ext.
      intros _ t _. simpl. apply path_join_tmp. }
    split_and!.
    + done.
    + rewrite Hpaths, <-(Z2Nat.id k), range_of_nat by lia.
      rewrite <-list_fmap_compose.
      apply NoDup_fmap; [|apply NoDup_seq].
      intros i j Hij. simpl in Hij.
      apply (inj (String.app "/tmp/")), (inj pretty) in Hij. lia.
    + intros p a Hp. apply list_elem_of_fmap in Hp as (t & [= -> ->] & Ht).
      by apply local_fs_foldl.
Qed.

(** C7: a call of [save_and_upload] writes one local file and transfers
    one object; both hold the same dictionary, which maps ["X"] to the
    X-slice, ["y"] to the y-slice, and has no other entry. *)
Theorem save_and_upload_artifact r (X y : ndarray scalar) (folder : string)
    (i : Z) w :
  ∃ w' (d : artifact scalar),
    save_and_upload r X y folder i w = (Ok tt, w')
    ∧ saves (new_events w w') = [(path_join "/tmp" (format_int i), d)]
    ∧ uploads (new_events w w')
      = [(path_join "/tmp" (format_int i), "eduthie-sagemaker-1",
          upload_filename r folder (format_int i), d)]
    ∧ local_fs w' !! path_join "/tmp" (format_int i) = Some d
    ∧ s3_objects w'
        !! ("eduthie-sagemaker-1", upload_filename r folder (format_int i))
      = Some d
    ∧ d !! "X" = Some X ∧ d !! "y" = Some y
    ∧ dom d = {[ "X"; "y" ]} ∧ size d = 2%nat.
Proof.
  exists (after_shard r folder w (X, y, i)), (shard_artifact X y).
  split_and!.
  - apply save_and_upload_run.
  - erewrite new_events_app by done. by destruct r.
  - erewrite new_events_app by done. by destruct r.
  - apply lookup_insert_eq.
  - apply lookup_insert_eq.
  - done.
  - done.
  - unfold shard_artifact. rewrite dom_insert_L, dom_singleton_L. set_solver.
  - unfold shard_artifact. rewrite map_size_insert_None by done.
    by rewrite map_size_singleton.
Qed.

(** C8: in a successful call the writes and transfers (the trace without
    its printed lines) alternate, shard by shard in index order: position
    [2i] is the write of shard [i] and position [2i+1] is the transfer of
    that same file, so each write precedes its transfer, which precedes the
    next shard's write. Each event is one blocking call. *)
Theorem split_and_upload_sequential r (X y : ndarray scalar) (k : Z)
    (folder : string) w w' :
  split_and_upload r X y k folder w = (Ok tt, w') →
  ∃ tr, events w' = events w ++ tr
    ∧ length (storage tr) = (2 * Z.to_nat k)%nat
    ∧ ∀ i : nat, (i < Z.to_nat k)%nat →
        let s := nd_len X `div` k in
        let d := shard_artifact
                   (nd_slice X (Z.of_nat i * s) ((Z.of_nat i + 1) * s))
                   (nd_slice y (Z.of_nat i * s) ((Z.of_nat i + 1) * s)) in
        let p := path_join "/tmp" (format_int (Z.of_nat i)) in
        storage tr !! (2 * i)%nat = Some (EvSave p d)
        ∧ storage tr !! (2 * i + 1)%nat
          = Some (EvUpload p "eduthie-sagemaker-1"
                    (upload_filename r folder (format_int (Z.of_nat i))) d).
Proof.
  intros Hrun.
  destruct (split_and_upload_cases X y k folder w)
    as [[_ H]|[(_ & _ & H)|[(_ & _ & H)|[[Hk H]|(Hk & Hs & H)]]]];
    rewrite H in Hrun; simplify_eq.
  - exists []. rewrite (right_id_L [] (++)). split_and!; [done|simpl; lia|lia].
  - eexists. split; [apply events_foldl|].
    rewrite storage_shards. split.
    + rewrite length_bind_pairs. unfold shards_by.
      by rewrite length_fmap, length_seq.
    + intros i Hi. cbv zeta.
      pose proof (lookup_bind_pairs
        (λ t : ndarray scalar * ndarray scalar * Z,
           EvSave (local_path t.2) (shard_artifact t.1.1 t.1.2))
        (λ t, EvUpload (local_path t.2) "eduthie-sagemaker-1"
                (upload_filename r folder (format_int t.2))
                (shard_artifact t.1.1 t.1.2))
        (shards_by (nd_len X `div` k) (Z.to_nat k) X y) i) as [H1 H2].
      rewrite H1, H2. unfold shards_by.
      by rewrite list_lookup_fmap, lookup_seq_lt by lia.
Qed.




(** C3 at the first revision: for the folder [train] and shard [0] the
    destination key has two separators between the prefix directory and
    the folder, because the prefix already ends with one. *)
Theorem rev0_upload_key_doubled_separator (X y : ndarray scalar) w :
  uploads (new_events w (save_and_upload part_000 X y "train" 0 w).2)
  = [("/tmp/0", "eduthie-sagemaker-1",
      "distributed_training_gluon_lab//train/0", shard_artifact X y)].
Proof.
  rewrite save_and_upload_run. by erewrite new_events_app by done.
Qed.

(** The second revision builds the key [<prefix dir>/<folder>/<index>]. *)
Lemma rev1_upload_key_layout (folder : string) (i : Z) :
  upload_filename part_001 folder (format_int i)
  = "distributed_training_gluon_lab" +:+ "/" +:+ folder +:+ "/" +:+ format_int i.
Proof. done. Qed.

(** The first revision puts one more separator after the prefix directory. *)
Lemma rev0_upload_key_layout (folder : string) (i : Z) :
  upload_filename part_000 folder (format_int i)
  = "distributed_training_gluon_lab" +:+ "//" +:+ folder +:+ "/" +:+ format_int i.
Proof. done. Qed.

End Sharding.

(** ** The training entry point: selection and epoch count *)

Section TrainingFacts.

Import Training.

Context {params batch loss rate : Type}.
Variable sgd_step : sync_mode → option rate → params → batch → params * loss.
Variable average : list loss → loss.

Lemma run_epoch_losses mode lr θ batches :
  length (run_epoch sgd_step mode lr θ batches).2 = length batches.
Proof.
  unfold run_epoch.
  assert (∀ acc, length (foldl (λ acc b,
      let '(θ', l) := sgd_step mode lr acc.1 b in (θ', acc.2 ++ [l]))
      acc batches).2 = (length acc.2 + length batches)%nat) as Hgen.
  { induction batches as [|b bs IH]; intros acc; simpl; [lia|].
    rewrite IH. destruct (sgd_step mode lr acc.1 b) as [θ' l]. simpl.
    rewrite length_app. simpl. lia. }
  by rewrite Hgen.
Qed.

Lemma epoch_loop_total n e mode lr θ batches :
  batches ≠ [] →
  ∃ reports, epoch_loop sgd_step average n e mode lr θ batches = Ok reports
    ∧ reports.*1 = seq e n.
Proof.
  intros Hb. revert e θ. induction n as [|n IH]; intros e θ; simpl.
  - by exists [].
  - pose proof (run_epoch_losses mode lr θ batches) as Hlen.
    destruct (run_epoch sgd_step mode lr θ batches) as [θ' losses]. simpl in Hlen.
    destruct losses as [|l losses].
    { destruct batches; [done|discriminate]. }
    destruct (IH (S e) θ') as (rest & -> & Hrest). simpl.
    eexists. split; [done|]. rewrite fmap_cons. by rewrite Hrest.
Qed.

(** C4: the mode selected by [train] is a distributed one when the host
    list has more than one element and the local one when it has exactly
    one, as for [hosts = ['alg-1']]. *)
Theorem train_selects_sync_mode policy θ0 batches hp dirs num_gpus
    (hosts : list string) current_host :
  (1 < length hosts →
     kvstore (train sgd_step average policy θ0 batches hp dirs num_gpus hosts current_host)
     = Distributed policy)
  ∧ (length hosts = 1 →
     kvstore (train sgd_step average policy θ0 batches hp dirs num_gpus hosts current_host)
     = Local)
  ∧ kvstore (train sgd_step average policy θ0 batches hp dirs num_gpus ["alg-1"] current_host)
    = Local.
Proof.
  unfold train, select_sync_mode. simpl. split_and!.
  - intros H. by rewrite decide_True.
  - intros H. rewrite decide_False; [done|lia].
  - done.
Qed.

(** C5: with [epochs = N] and at least one batch, [train] returns and
    reports exactly [N] losses, the ones of epochs [0 .. N-1] in order,
    whatever the number of batches. *)
Theorem train_reports_one_loss_per_epoch policy θ0 (batches : list batch) hp
    dirs num_gpus hosts current_host :
  batches ≠ [] →
  ∃ reports,
    outcome (train sgd_step average policy θ0 batches hp dirs num_gpus hosts current_host)
    = Ok reports
    ∧ length reports = epochs hp
    ∧ reports.*1 = seq 0 (epochs hp).
Proof.
  intros Hb. unfold train. simpl.
  destruct (epoch_loop_total (epochs hp) 0 (select_sync_mode policy hosts)
              (learning_rate hp) θ0 batches Hb) as (reports & -> & Hr).
  exists reports. split_and!; [done| |done].
  by rewrite <-(length_fmap fst), Hr, length_seq.
Qed.

End TrainingFacts.

(** ** Concrete runs *)

Section ConcreteRuns.

Import Examples.

Local Open Scope Z_scope.

Lemma split_and_upload_partition_witness :
  ∃ w' Xs ys,
    split_and_upload part_001 (Matrix X4) (Vector y4) 2 "train" empty_world
    = (Ok tt, w')
    ∧ Xs = [[[1; 2]; [3; 4]]; [[5; 6]; [7; 8]]] ∧ ys = [[10; 20]; [30; 40]]
    ∧ concat Xs = X4 ∧ concat ys = y4.
Proof.
  destruct (split_and_upload_partition part_001 X4 y4 2 "train" empty_world)
    as (w' & Xs & ys & Hrun & _ & HXs & Hys & Hslices & _ & _ & HX & Hy & _).
  - reflexivity.
  - lia.
  - by exists 2.
  - simpl. lia.
  - exists w', Xs, ys.
    destruct (Hslices 0%nat) as [HX0 Hy0]; [simpl; lia|].
    destruct (Hslices 1%nat) as [HX1 Hy1]; [simpl; lia|].
    destruct Xs as [|a [|b [|? ?]]]; try discriminate.
    destruct ys as [|c [|d [|? ?]]]; try discriminate.
    simplify_eq/=. done.
Defined.

(** C1 as stated fails on an empty dataset: the length is divisible by
    [k = 1], yet the call raises [ValueError] from the zero step of the
    boundary range. *)
Lemma split_and_upload_empty_dataset_raises :
  length (@nil (list Z)) = length (@nil Z) ∧ 1 ≤ 1 ∧ (1 | Z.of_nat (length (@nil (list Z))))
  ∧ split_and_upload part_000 (Matrix []) (Vector ([] : list Z)) 1 "train" empty_world
    = (Raise ValueError, empty_world)
  ∧ split_and_upload part_001 (Matrix []) (Vector ([] : list Z)) 1 "train" empty_world
    = (Raise ValueError, empty_world).
Proof. split_and!; [done|lia|by exists 0|done|done]. Qed.

Lemma split_and_upload_indivisible_witness :
  split_and_upload part_001 (Matrix X4) (Vector y4) 3 "train" empty_world
  = (Raise AssertionError, empty_world).
Proof.
  apply (split_and_upload_indivisible part_001 (Matrix X4) (Vector y4) 3
           "train" empty_world).
  intros [z Hz]. simpl in Hz. lia.
Defined.

(** C2 as stated fails for [k = 0]: zero does not divide a non-zero length,
    and the call raises [ZeroDivisionError], not the assertion's error. *)
Lemma split_and_upload_zero_count_raises :
  ¬ (0 | nd_len (Matrix X1))
  ∧ split_and_upload part_000 (Matrix X1) (Vector y1) 0 "train" empty_world
    = (Raise ZeroDivisionError, empty_world)
  ∧ split_and_upload part_001 (Matrix X1) (Vector y1) 0 "train" empty_world
    = (Raise ZeroDivisionError, empty_world)
  ∧ @Raise unit ZeroDivisionError ≠ Raise AssertionError.
Proof.
  split_and!; [|done..]. intros [z Hz]. simpl in Hz. lia.
Qed.

Lemma boundary_list_in_bounds_witness :
  ∃ idx : list Z,
    range3 0 (4 + 1) (4 `div` 2) = Ok idx ∧ length idx = 3%nat.
Proof.
  destruct (boundary_list_in_bounds part_001 (Matrix X4) (Vector y4) 2 "train"
              empty_world) as (idx & Hidx & Hlen & _).
  - lia.
  - by exists 2.
  - simpl. lia.
  - by exists idx.
Defined.

(** C10 as stated fails on an empty dataset: [n // k] is zero, so building
    the boundary list raises [ValueError] and no list exists. *)
Lemma boundary_list_empty_dataset_raises :
  1 ≤ 1 ∧ (1 | nd_len (Matrix ([] : list (list Z))))
  ∧ range3 0 (nd_len (Matrix ([] : list (list Z))) + 1)
      (nd_len (Matrix ([] : list (list Z))) `div` 1)
    = Raise ValueError.
Proof. split_and!; [lia|by exists 0|done]. Qed.

Lemma split_and_upload_local_files_witness :
  (saves (new_events empty_world w2)).*1 = ["/tmp/0"; "/tmp/1"]
  ∧ NoDup ((saves (new_events empty_world w2)).*1).
Proof.
  destruct (split_and_upload_local_files part_001 (Matrix X4) (Vector y4) 2
              "train" empty_world w2) as (Hpaths & Hnd & _).
  - vm_compute. reflexivity.
  - split; [|exact Hnd]. rewrite Hpaths. vm_compute. reflexivity.
Defined.

(** C6 as stated fails: the two shards of one call are written to two
    different local files, and after the call the first file still holds
    the first shard. *)
Lemma shards_written_to_distinct_files :
  split_and_upload part_001 (Matrix X4) (Vector y4) 2 "train" empty_world
  = (Ok tt, w2)
  ∧ (saves (events w2)).*1 = ["/tmp/0"; "/tmp/1"]
  ∧ "/tmp/0" ≠ "/tmp/1"
  ∧ local_fs w2 !! "/tmp/0"
    = Some (shard_artifact (Matrix [[1; 2]; [3; 4]]) (Vector [10; 20]))
  ∧ local_fs w2 !! "/tmp/1"
    = Some (shard_artifact (Matrix [[5; 6]; [7; 8]]) (Vector [30; 40])).
Proof. split_and!; [by vm_compute..|done|by vm_compute|by vm_compute]. Qed.

Lemma split_and_upload_sequential_witness :
  ∃ tr, events w2 = tr
    ∧ storage tr !! 0%nat
      = Some (EvSave "/tmp/0"
                (shard_artifact (Matrix [[1; 2]; [3; 4]]) (Vector [10; 20])))
    ∧ storage tr !! 3%nat
      = Some (EvUpload "/tmp/1" "eduthie-sagemaker-1"
                "distributed_training_gluon_lab/train/1"
                (shard_artifact (Matrix [[5; 6]; [7; 8]]) (Vector [30; 40]))).
Proof.
  destruct (split_and_upload_sequential part_001 (Matrix X4) (Vector y4) 2
              "train" empty_world w2) as (tr & Htr & _ & Hpos).
  - vm_compute. reflexivity.
  - exists tr. simpl in Htr. split; [done|].
    destruct (Hpos 0%nat) as [H0 _]; [simpl; lia|].
    destruct (Hpos 1%nat) as [_ H1]; [simpl; lia|].
    split; [exact H0|exact H1].
Defined.



Lemma train_selects_sync_mode_witness :
  Training.kvstore
    (Training.train toy_step toy_average Training.DeviceSynchronous 0 [1; 2]
       toy_hyperparameters {[ "train" := "./data" ]} 1
       ["alg-1"; "alg-2"] "alg-1")
  = Training.Distributed Training.DeviceSynchronous.
Proof.
  apply (train_selects_sync_mode toy_step toy_average). simpl. lia.
Defined.

Lemma train_reports_one_loss_per_epoch_witness :
  ∃ reports,
    Training.outcome
      (Training.train toy_step toy_average Training.DeviceSynchronous 0 [1; 2]
         toy_hyperparameters {[ "train" := "./data" ]} 1 ["alg-1"] "alg-1")
    = Ok reports ∧ length reports = 10%nat.
Proof.
  destruct (train_reports_one_loss_per_epoch toy_step toy_average
              Training.DeviceSynchronous 0 [1; 2] toy_hyperparameters
              {[ "train" := "./data" ]} 1 ["alg-1"] "alg-1")
    as (reports & Hrun & Hlen & _).
  - discriminate.
  - by exists reports.
Defined.

End ConcreteRuns.

(** ** Destination keys *)

Section KeyFacts.

Local Open Scope Z_scope.

Lemma has_sep_app_sep (s t : string) : has_sep (s +:+ "/" +:+ t) = true.
Proof. induction s as [|c s IH]; [done|]. simpl. rewrite IH. apply orb_true_r. Qed.

Lemma pretty_N_go_has_sep (x : N) (s : string) :
  has_sep s = false → has_sep (pretty_N_go x s) = false.
Proof.
  revert s. induction (N.lt_wf_0 x) as [x _ IH]. intros s Hs.
  destruct (decide (x = 0)%N) as [->|Hx].
  - by rewrite pretty_N_go_0.
  - rewrite pretty_N_go_step by lia. apply IH.
    + apply N.div_lt; lia.
    + simpl. rewrite Hs, orb_false_r. apply bool_decide_eq_false.
      unfold pretty_N_char. by repeat case_match.
Qed.

(** A decimal representation contains no path separator. *)
Lemma format_int_has_sep (i : Z) : has_sep (format_int i) = false.
Proof.
  assert (∀ p : positive, has_sep (pretty p) = false) as Hpos.
  { intros p. unfold pretty, pretty_positive, pretty, pretty_N.
    rewrite decide_False by done. by apply pretty_N_go_has_sep. }
  unfold format_int, pretty, pretty_Z.
  destruct i as [|p|p]; [done|apply Hpos|]. simpl. apply Hpos.
Qed.

(** A string is cut in one way only at its last separator. *)
Lemma split_at_last_sep (f f' d d' : string) :
  has_sep d = false → has_sep d' = false →
  f +:+ "/" +:+ d = f' +:+ "/" +:+ d' → f = f' ∧ d = d'.
Proof.
  intros Hd Hd'. revert f'.
  induction f as [|c f IH]; intros [|c' f'] Heq; simpl in Heq.
  - by simplify_eq.
  - simplify_eq. pose proof (has_sep_app_sep f' d') as Hsep.
    change (d = f' +:+ "/" +:+ d') in H. congruence.
  - simplify_eq. pose proof (has_sep_app_sep f d) as Hsep.
    change (f +:+ "/" +:+ d = d') in H. congruence.
  - injection Heq as -> Heq. destruct (IH f' Heq) as [-> ->]. done.
Qed.

Lemma upload_filename_cut (r : revision) (folder file_name : string) :
  upload_filename r folder file_name
  = match r with
    | part_000 => "distributed_training_gluon_lab//"
    | part_001 => "distributed_training_gluon_lab/"
    end +:+ folder +:+ "/" +:+ file_name.
Proof. by destruct r. Qed.

(** X1: the destination key determines the folder and the shard index, in
    both revisions: two uploads go to the same object only when both their
    folders and their indices agree. *)
Theorem upload_filename_inj (r : revision) (folder folder' : string) (i j : Z) :
  upload_filename r folder (format_int i)
  = upload_filename r folder' (format_int j) →
  folder = folder' ∧ i = j.
Proof.
  rewrite !upload_filename_cut. intros Heq.
  apply (inj (String.app _)) in Heq.
  apply split_at_last_sep in Heq as [-> Hij]; [|apply format_int_has_sep..].
  split; [done|]. by apply (inj pretty) in Hij.
Qed.

End KeyFacts.

(** ** The stores after a call of the sharding routine *)

Section StoreFacts.

Context {scalar : Type}.
Implicit Types (X y : ndarray scalar) (w : world scalar) (r : revision).
Implicit Types (l : list (ndarray scalar * ndarray scalar * Z)).

Local Open Scope Z_scope.

(** The outcome of a call does not depend on the world it starts from. *)
Lemma split_and_upload_outcomes X y (k : Z) (folder : string) :
  (k = 0 ∧ ∀ r w, split_and_upload r X y k folder w = (Raise ZeroDivisionError, w))
  ∨ (k ≠ 0 ∧ ¬ (k | nd_len X)
     ∧ ∀ r w, split_and_upload r X y k folder w = (Raise AssertionError, w))
  ∨ (k ≠ 0 ∧ (k | nd_len X) ∧ nd_len X = 0
     ∧ ∀ r w, split_and_upload r X y k folder w = (Raise ValueError, w))
  ∨ (k < 0 ∧ (k | nd_len X) ∧ nd_len X ≠ 0
     ∧ ∀ r w, split_and_upload r X y k folder w = (Ok tt, w))
  ∨ (1 ≤ k ∧ (k | nd_len X) ∧ 1 ≤ nd_len X
     ∧ ∀ r w, split_and_upload r X y k folder w
              = (Ok tt, foldl (after_shard r folder) w
                          (shards_by (nd_len X `div` k) (Z.to_nat k) X y))).
Proof.
  destruct (decide (k = 0)) as [->|Hk].
  { left. split; [done|]. intros r w. apply split_zero_shards. }
  destruct (decide (nd_len X `div` k * k = nd_len X)) as [Hdiv|Hdiv];
    rewrite exact_division_iff in Hdiv by done.
  2: { right; left. split_and!; [done..|]. intros r w.
       by apply split_indivisible. }
  destruct (decide (nd_len X = 0)) as [Hn|Hn].
  { do 2 right; left. split_and!; [done..|]. intros r w.
    by apply split_empty_dataset. }
  pose proof (nd_len_nonneg X).
  destruct (decide (k < 0)) as [Hneg|Hpos].
  { do 3 right; left. split_and!; [done..|]. intros r w.
    by apply split_negative_count. }
  do 4 right.
  destruct (shard_count_size (nd_len X) k) as [Hs Hks]; [lia|done|lia|].
  split_and!; [lia|done|lia|]. intros r w.
  rewrite <-(Z2Nat.id k) at 1 by lia.
  apply split_and_upload_run; lia.
Qed.

Lemma shards_by_indices (s : Z) (k : nat) X y :
  (shards_by s k X y).*2 = Z.of_nat <$> seq 0 k.
Proof. unfold shards_by. by rewrite <-list_fmap_compose. Qed.

Lemma shards_by_NoDup (s : Z) (k : nat) X y : NoDup ((shards_by s k X y).*2).
Proof.
  rewrite shards_by_indices. apply NoDup_fmap; [apply _|apply NoDup_seq].
Qed.

Lemma elem_of_shards_by (s : Z) (k : nat) X y t :
  t ∈ shards_by s k X y → t.2 ∈ range (Z.of_nat k).
Proof.
  intros Ht. rewrite range_of_nat, <-(shards_by_indices s k X y).
  apply list_elem_of_fmap. by exists t.
Qed.

Lemma lookup_shards_by (s : Z) (k i : nat) X y :
  (i < k)%nat →
  shards_by s k X y !! i
  = Some (nd_slice X (Z.of_nat i * s) ((Z.of_nat i + 1) * s),
          nd_slice y (Z.of_nat i * s) ((Z.of_nat i + 1) * s), Z.of_nat i).
Proof.
  intros Hi. unfold shards_by. by rewrite list_lookup_fmap, lookup_seq_lt by lia.
Qed.

Lemma s3_objects_foldl r folder w l t :
  NoDup (l.*2) → t ∈ l →
  s3_objects (foldl (after_shard r folder) w l)
    !! ("eduthie-sagemaker-1", upload_filename r folder (format_int t.2))
  = Some (shard_artifact t.1.1 t.1.2).
Proof.
  induction l as [|t' l IH] using rev_ind; intros Hnd Ht.
  - by apply elem_of_nil in Ht.
  - rewrite foldl_app. simpl.
    rewrite fmap_app in Hnd. apply NoDup_app in Hnd as (Hl & Hfresh & _).
    apply elem_of_app in Ht as [Ht|Ht].
    + rewrite lookup_insert_ne; [by apply IH|].
      intros [= Heq]. apply upload_filename_inj in Heq as [_ Heq].
      apply (Hfresh t.2).
      * apply list_elem_of_fmap. by exists t.
      * rewrite <-Heq. simpl. left.
    + apply list_elem_of_singleton in Ht as ->. apply lookup_insert_eq.
Qed.

Lemma local_fs_foldl_frame r folder w l (p : string) :
  (∀ t, t ∈ l → local_path t.2 ≠ p) →
  local_fs (foldl (after_shard r folder) w l) !! p = local_fs w !! p.
Proof.
  revert w. induction l as [|t l IH]; intros w Hp; [done|].
  simpl. rewrite IH by (intros t' Ht'; apply Hp; by right).
  simpl. apply lookup_insert_ne, Hp. left.
Qed.

Lemma s3_objects_foldl_frame r folder w l (b key : string) :
  (∀ t, t ∈ l →
     ("eduthie-sagemaker-1", upload_filename r folder (format_int t.2)) ≠ (b, key)) →
  s3_objects (foldl (after_shard r folder) w l) !! (b, key)
  = s3_objects w !! (b, key).
Proof.
  revert w. induction l as [|t l IH]; intros w Hp; [done|].
  simpl. rewrite IH by (intros t' Ht'; apply Hp; by right).
  simpl. apply lookup_insert_ne, Hp. left.
Qed.

(** X2: after a call that returns, the object at the key of shard [i] holds
    shard [i], for every [i] below [k]: no shard's transfer replaces another
    shard's object. *)
Theorem split_and_upload_objects_retrievable r X y (k : Z) (folder : string) w w' :
  split_and_upload r X y k folder w = (Ok tt, w') →
  ∀ i : nat, (i < Z.to_nat k)%nat →
    let s := nd_len X `div` k in
    s3_objects w'
      !! ("eduthie-sagemaker-1",
          upload_filename r folder (format_int (Z.of_nat i)))
    = Some (shard_artifact
              (nd_slice X (Z.of_nat i * s) ((Z.of_nat i + 1) * s))
              (nd_slice y (Z.of_nat i * s) ((Z.of_nat i + 1) * s))).
Proof.
  intros Hrun i Hi.
  destruct (split_and_upload_outcomes X y k folder)
    as [[_ H]|[(_ & _ & H)|[(_ & _ & _ & H)|[(Hk & _ & _ & H)|(Hk & _ & _ & H)]]]];
    rewrite H in Hrun; simplify_eq; [lia|].
  cbv zeta.
  apply (s3_objects_foldl r folder w _
    (nd_slice X (Z.of_nat i * (nd_len X `div` k))
               ((Z.of_nat i + 1) * (nd_len X `div` k)),
     nd_slice y (Z.of_nat i * (nd_len X `div` k))
               ((Z.of_nat i + 1) * (nd_len X `div` k)), Z.of_nat i)).
  - apply shards_by_NoDup.
  - apply list_elem_of_lookup. exists i. by apply lookup_shards_by.
Qed.

(** X3: whatever its outcome, a call leaves alone every local file other
    than [/tmp/<i>] and every object other than those at a key of a shard
    index [i] of [range(k)] in the notebook's bucket. *)
Theorem split_and_upload_frame r X y (k : Z) (folder : string) w :
  (∀ p : string,
     (∀ i, i ∈ range k → p ≠ path_join "/tmp" (format_int i)) →
     local_fs (split_and_upload r X y k folder w).2 !! p = local_fs w !! p)
  ∧ (∀ b key : string,
       (b ≠ "eduthie-sagemaker-1"
        ∨ ∀ i, i ∈ range k → key ≠ upload_filename r folder (format_int i)) →
       s3_objects (split_and_upload r X y k folder w).2 !! (b, key)
       = s3_objects w !! (b, key)).
Proof.
  destruct (split_and_upload_outcomes X y k folder)
    as [[_ H]|[(_ & _ & H)|[(_ & _ & _ & H)|[(Hk & _ & _ & H)|(Hk & _ & _ & H)]]]];
    rewrite H; simpl; try done.
  split.
  - intros p Hp. apply local_fs_foldl_frame. intros t Ht Heq.
    apply elem_of_shards_by in Ht. rewrite Z2Nat.id in Ht by lia.
    by apply (Hp t.2).
  - intros b key Hkey. apply s3_objects_foldl_frame. intros t Ht [= Hb Heq].
    apply elem_of_shards_by in Ht. rewrite Z2Nat.id in Ht by lia.
    destruct Hkey as [Hne|Hne]; [done|]. by apply (Hne t.2).
Qed.


(** X5: a call that returns was given a non-zero [k] that divides the
    length of a non-empty dataset. *)
Theorem split_and_upload_returns_only_if r X y (k : Z) (folder : string) w w' :
  split_and_upload r X y k folder w = (Ok tt, w') →
  k ≠ 0 ∧ (k | nd_len X) ∧ nd_len X ≠ 0.
Proof.
  intros Hrun.
  destruct (split_and_upload_outcomes X y k folder)
    as [[? H]|[(? & ? & H)|[(? & ? & ? & H)|[(? & ? & ? & H)|(? & ? & ? & H)]]]];
    rewrite H in Hrun; simplify_eq; split_and!; (done || lia).
Qed.

(** X6: on an empty dataset a call fails for every [k], with the division's
    error for [k = 0] and otherwise with the [ValueError] of the boundary
    range's zero step, before it writes, transfers or prints anything. *)
Theorem split_and_upload_empty_dataset_fails r X y (k : Z) (folder : string) w :
  nd_len X = 0 →
  split_and_upload r X y k folder w
  = (Raise (if decide (k = 0) then ZeroDivisionError else ValueError), w).
Proof.
  intros Hn. destruct (decide (k = 0)) as [->|Hk].
  - apply split_zero_shards.
  - by apply split_empty_dataset.
Qed.

(** X7: for a negative [k] that divides the length of a non-empty dataset
    the assertion passes and the call returns without writing, transferring
    or printing anything. *)
Theorem split_and_upload_negative_count r X y (k : Z) (folder : string) w :
  k < 0 → (k | nd_len X) → 1 ≤ nd_len X →
  split_and_upload r X y k folder w = (Ok tt, w).
Proof.
  intros Hk Hdiv Hn.
  destruct (split_and_upload_outcomes X y k folder)
    as [[? H]|[(? & ? & H)|[(? & ? & ? & H)|[(? & ? & ? & H)|(? & ? & ? & H)]]]];
    first [lia | done | apply H].
Qed.

End StoreFacts.

(** ** The cell that splits the dataset and uploads it *)

Section CellFacts.

Context {scalar : Type}.
Implicit Types (X y : ndarray scalar) (w : world scalar) (r : revision).

Local Open Scope Z_scope.

Lemma clamp_range (len i : Z) : 0 ≤ len → 0 ≤ clamp len i ≤ len.
Proof. intros Hlen. unfold clamp. case_decide; lia. Qed.

Lemma slice_prefix {A} (l : list A) (s : Z) :
  slice l 0 s = take (Z.to_nat (clamp (Z.of_nat (length l)) s)) l.
Proof.
  unfold slice.
  assert (clamp (Z.of_nat (length l)) 0 = 0) as ->.
  { unfold clamp. rewrite decide_False by lia. lia. }
  simpl. f_equal. lia.
Qed.

(** X8: the training part [l[0:split_index]] followed by the test part
    [l[split_index:]] is the whole sequence, for every integer
    [split_index] (negative or past the end included); for an index within
    bounds the training part has exactly [split_index] items. *)
Theorem train_test_split_partition {A} (l : list A) (split_index : Z) :
  slice l 0 split_index ++ slice_from l split_index = l
  ∧ (length (slice l 0 split_index) + length (slice_from l split_index)
     = length l)%nat
  ∧ (0 ≤ split_index ≤ Z.of_nat (length l) →
     Z.of_nat (length (slice l 0 split_index)) = split_index).
Proof.
  rewrite slice_prefix. unfold slice_from.
  pose proof (clamp_range (Z.of_nat (length l)) split_index) as Hc.
  split_and!.
  - apply take_drop.
  - rewrite length_take, length_drop. lia.
  - intros Hs. rewrite length_take. unfold clamp in *.
    rewrite decide_False in * by lia. lia.
Qed.

Lemma run_print {B} (line : string) (f : unit → M scalar B) w :
  (print line ≫= f) w
  = f tt (World (local_fs w) (s3_objects w) (events w ++ [EvPrint line])).
Proof. done. Qed.

Lemma run_save_and_upload {B} r X y (folder : string) (i : Z)
    (f : unit → M scalar B) w :
  (save_and_upload r X y folder i ≫= f) w
  = f tt (after_shard r folder w (X, y, i)).
Proof.
  rewrite run_bind. by rewrite save_and_upload_run.
Qed.

Lemma upload_cell_rev1_run X y (split_index : Z) w :
  Cell1.upload_cell X y split_index w
  = match split_and_upload part_001 (nd_slice X 0 split_index)
            (nd_slice y 0 split_index) 5 "train"
            (after_shard part_001 "train/full" (after_lengths X y split_index w)
               (nd_slice X 0 split_index, nd_slice y 0 split_index, 0)) with
    | (Ok _, w') =>
        (Ok tt, after_shard part_001 "test" w'
                  (nd_slice_from X split_index, nd_slice_from y split_index, 0))
    | (Raise e, w') => (Raise e, w')
    end.
Proof.
  unfold Cell1.upload_cell, Cell1.num_splits. rewrite !run_print.
  cbn [local_fs s3_objects events]. rewrite <-(assoc_L (++)). simpl app.
  fold (after_lengths X y split_index w).
  change (@Rev1.split_and_upload scalar) with (@split_and_upload scalar part_001).
  change (@Rev1.save_and_upload scalar) with (@save_and_upload scalar part_001).
  rewrite run_save_and_upload, run_bind.
  destruct (split_and_upload part_001 _ _ _ _ _) as [[[]|e] w']; [|done].
  apply save_and_upload_run.
Qed.

Lemma upload_cell_rev0_run X y (split_index : Z) w :
  Cell0.upload_cell X y split_index w
  = match split_and_upload part_000 (nd_slice X 0 split_index)
            (nd_slice y 0 split_index) 5 "train"
            (after_lengths X y split_index w) with
    | (Ok _, w') =>
        (Ok tt, after_shard part_000 "test" w'
                  (nd_slice_from X split_index, nd_slice_from y split_index, 0))
    | (Raise e, w') => (Raise e, w')
    end.
Proof.
  unfold Cell0.upload_cell. rewrite !run_print.
  cbn [local_fs s3_objects events]. rewrite <-(assoc_L (++)). simpl app.
  fold (after_lengths X y split_index w).
  change (@Rev0.split_and_upload scalar) with (@split_and_upload scalar part_000).
  change (@Rev0.save_and_upload scalar) with (@save_and_upload scalar part_000).
  rewrite run_bind.
  destruct (split_and_upload part_000 _ _ _ _ _) as [[[]|e] w']; [|done].
  apply save_and_upload_run.
Qed.

End CellFacts.

Section CellTheorems.

Context {scalar : Type}.
Implicit Types (X y : ndarray scalar) (w : world scalar).

Local Open Scope Z_scope.

Lemma upload_cell_rev1_success X y (split_index : Z) w :
  1 ≤ nd_len (nd_slice X 0 split_index) →
  (5 | nd_len (nd_slice X 0 split_index)) →
  Cell1.upload_cell X y split_index w
  = (Ok tt,
     after_shard part_001 "test"
       (foldl (after_shard part_001 "train")
          (after_shard part_001 "train/full" (after_lengths X y split_index w)
             (nd_slice X 0 split_index, nd_slice y 0 split_index, 0))
          (shards_by (nd_len (nd_slice X 0 split_index) `div` 5) 5
             (nd_slice X 0 split_index) (nd_slice y 0 split_index)))
       (nd_slice_from X split_index, nd_slice_from y split_index, 0)).
Proof.
  intros Hn Hdiv. rewrite upload_cell_rev1_run.
  destruct (shard_count_size _ 5 ltac:(lia) Hdiv Hn) as [Hq Hnq].
  by rewrite (split_and_upload_run part_001 _ _ 5 _ _ _ ltac:(lia) Hq Hnq).
Qed.

(** X9: when the training part is not empty and its length is divisible
    by 5, the cell of part_001 returns, and afterwards the bucket holds the
    full training part at [train/full/0], the five shards of the training
    part at [train/0] .. [train/4], and the test part at [test/0]. *)
Theorem upload_cell_rev1_objects X y (split_index : Z) w :
  1 ≤ nd_len (nd_slice X 0 split_index) →
  (5 | nd_len (nd_slice X 0 split_index)) →
  let X_train := nd_slice X 0 split_index in
  let y_train := nd_slice y 0 split_index in
  let s := nd_len X_train `div` 5 in
  ∃ w', Cell1.upload_cell X y split_index w = (Ok tt, w')
    ∧ s3_objects w'
        !! ("eduthie-sagemaker-1", "distributed_training_gluon_lab/train/full/0")
      = Some (shard_artifact X_train y_train)
    ∧ (∀ i : nat, (i < 5)%nat →
         s3_objects w'
           !! ("eduthie-sagemaker-1",
               "distributed_training_gluon_lab/train/" +:+ format_int (Z.of_nat i))
         = Some (shard_artifact
                   (nd_slice X_train (Z.of_nat i * s) ((Z.of_nat i + 1) * s))
                   (nd_slice y_train (Z.of_nat i * s) ((Z.of_nat i + 1) * s))))
    ∧ s3_objects w'
        !! ("eduthie-sagemaker-1", "distributed_training_gluon_lab/test/0")
      = Some (shard_artifact (nd_slice_from X split_index)
                (nd_slice_from y split_index)).
Proof.
  intros Hn Hdiv X_train y_train s.
  eexists. split; [by apply upload_cell_rev1_success|].
  fold X_train y_train s.
  set (l := shards_by s 5 X_train y_train).
  split_and!.
  - unfold after_shard at 1. cbn [s3_objects].
    rewrite lookup_insert_ne by done.
    rewrite s3_objects_foldl_frame.
    2: { intros t Ht [= Heq]. pose proof (format_int_has_sep t.2) as Hs.
         change ("" +:+ format_int t.2) with (format_int t.2) in Heq.
         by rewrite Heq in Hs. }
    apply lookup_insert_eq.
  - intros i Hi. unfold after_shard at 1. cbn [s3_objects].
    rewrite lookup_insert_ne.
    2: { intros Heq. by injection Heq. }
    apply (s3_objects_foldl part_001 "train" _ l
      (nd_slice X_train (Z.of_nat i * s) ((Z.of_nat i + 1) * s),
       nd_slice y_train (Z.of_nat i * s) ((Z.of_nat i + 1) * s), Z.of_nat i)).
    + apply shards_by_NoDup.
    + apply list_elem_of_lookup. exists i. by apply lookup_shards_by.
  - apply lookup_insert_eq.
Qed.

(** X10: the cell of part_001 reuses local files: after a run that returns,
    [/tmp/0] holds the test part (the full copy and shard 0 written there
    before are gone), while [/tmp/1] .. [/tmp/4] hold shards 1 to 4. *)
Theorem upload_cell_rev1_local_files X y (split_index : Z) w :
  1 ≤ nd_len (nd_slice X 0 split_index) →
  (5 | nd_len (nd_slice X 0 split_index)) →
  let X_train := nd_slice X 0 split_index in
  let y_train := nd_slice y 0 split_index in
  let s := nd_len X_train `div` 5 in
  ∃ w', Cell1.upload_cell X y split_index w = (Ok tt, w')
    ∧ local_fs w' !! "/tmp/0"
      = Some (shard_artifact (nd_slice_from X split_index)
                (nd_slice_from y split_index))
    ∧ (∀ i : nat, (1 ≤ i < 5)%nat →
         local_fs w' !! ("/tmp/" +:+ format_int (Z.of_nat i))
         = Some (shard_artifact
                   (nd_slice X_train (Z.of_nat i * s) ((Z.of_nat i + 1) * s))
                   (nd_slice y_train (Z.of_nat i * s) ((Z.of_nat i + 1) * s)))).
Proof.
  intros Hn Hdiv X_train y_train s.
  eexists. split; [by apply upload_cell_rev1_success|].
  fold X_train y_train s.
  set (l := shards_by s 5 X_train y_train).
  split.
  - apply lookup_insert_eq.
  - intros i Hi. unfold after_shard at 1. cbn [local_fs].
    rewrite <-path_join_tmp. rewrite lookup_insert_ne.
    2: { intros Heq. apply (path_join_tmp_inj 0 (Z.of_nat i)) in Heq. lia. }
    apply (local_fs_foldl part_001 "train" _ l
      (nd_slice X_train (Z.of_nat i * s) ((Z.of_nat i + 1) * s),
       nd_slice y_train (Z.of_nat i * s) ((Z.of_nat i + 1) * s), Z.of_nat i)).
    + apply shards_by_NoDup.
    + apply list_elem_of_lookup. exists i. apply lookup_shards_by. lia.
Qed.

(** X11: when the length of the training part is not divisible by 5, the
    cell of part_001 stops with the assertion's error after it has already
    written and transferred the full copy: exactly one object,
    [train/full/0], has been put, and neither a shard nor the test part. *)
Theorem upload_cell_rev1_partial_upload X y (split_index : Z) w :
  ¬ (5 | nd_len (nd_slice X 0 split_index)) →
  let d := shard_artifact (nd_slice X 0 split_index) (nd_slice y 0 split_index) in
  ∃ w', Cell1.upload_cell X y split_index w = (Raise AssertionError, w')
    ∧ uploads (new_events w w')
      = [("/tmp/0", "eduthie-sagemaker-1",
          "distributed_training_gluon_lab/train/full/0", d)]
    ∧ s3_objects w'
      = <[("eduthie-sagemaker-1", "distributed_training_gluon_lab/train/full/0")
          := d]> (s3_objects w)
    ∧ local_fs w' = <["/tmp/0" := d]> (local_fs w).
Proof.
  intros Hdiv d. rewrite upload_cell_rev1_run.
  rewrite split_indivisible by done.
  eexists. split; [done|]. split_and!; [|done..].
  by erewrite new_events_app by (simpl; by rewrite <-(assoc_L (++))).
Qed.

(** X12: when the length of the training part is not divisible by 5, the
    cell of part_000, which has no full copy to upload first, stops with
    the assertion's error before any file is written or any object is
    put. *)
Theorem upload_cell_rev0_no_upload X y (split_index : Z) w :
  ¬ (5 | nd_len (nd_slice X 0 split_index)) →
  ∃ w', Cell0.upload_cell X y split_index w = (Raise AssertionError, w')
    ∧ saves (new_events w w') = []
    ∧ uploads (new_events w w') = []
    ∧ s3_objects w' = s3_objects w
    ∧ local_fs w' = local_fs w.
Proof.
  intros Hdiv. rewrite upload_cell_rev0_run.
  rewrite split_indivisible by done.
  eexists. split; [done|]. split_and!; [| |done..].
  - by erewrite new_events_app by done.
  - by erewrite new_events_app by done.
Qed.

Lemma upload_cell_rev0_success X y (split_index : Z) w :
  1 ≤ nd_len (nd_slice X 0 split_index) →
  (5 | nd_len (nd_slice X 0 split_index)) →
  Cell0.upload_cell X y split_index w
  = (Ok tt,
     after_shard part_000 "test"
       (foldl (after_shard part_000 "train") (after_lengths X y split_index w)
          (shards_by (nd_len (nd_slice X 0 split_index) `div` 5) 5
             (nd_slice X 0 split_index) (nd_slice y 0 split_index)))
       (nd_slice_from X split_index, nd_slice_from y split_index, 0)).
Proof.
  intros Hn Hdiv. rewrite upload_cell_rev0_run.
  destruct (shard_count_size _ 5 ltac:(lia) Hdiv Hn) as [Hq Hnq].
  by rewrite (split_and_upload_run part_000 _ _ 5 _ _ _ ltac:(lia) Hq Hnq).
Qed.

Lemma length_slice_prefix {A} (l : list A) (s : Z) :
  0 ≤ s ≤ Z.of_nat (length l) → length (slice l 0 s) = Z.to_nat s.
Proof.
  intros Hs. rewrite slice_prefix, length_take. unfold clamp.
  rewrite decide_False by lia. lia.
Qed.

(** The objects of the folder [train] and the object [test/0] once the
    cell has returned, in either revision. *)
Lemma upload_cell_objects r X y (split_index : Z) w :
  1 ≤ nd_len (nd_slice X 0 split_index) →
  (5 | nd_len (nd_slice X 0 split_index)) →
  ∃ w', upload_cell r X y split_index w = (Ok tt, w')
    ∧ (∀ (i : nat) t,
         shards_by (nd_len (nd_slice X 0 split_index) `div` 5) 5
           (nd_slice X 0 split_index) (nd_slice y 0 split_index) !! i = Some t →
         s3_objects w'
           !! ("eduthie-sagemaker-1",
               upload_filename r "train" (format_int (Z.of_nat i)))
         = Some (shard_artifact t.1.1 t.1.2))
    ∧ s3_objects w'
        !! ("eduthie-sagemaker-1", upload_filename r "test" (format_int 0))
      = Some (shard_artifact (nd_slice_from X split_index)
                (nd_slice_from y split_index)).
Proof.
  intros Hn Hdiv.
  assert (∀ w0 (i : nat) t,
    shards_by (nd_len (nd_slice X 0 split_index) `div` 5) 5
      (nd_slice X 0 split_index) (nd_slice y 0 split_index) !! i = Some t →
    s3_objects (after_shard r "test"
      (foldl (after_shard r "train") w0
         (shards_by (nd_len (nd_slice X 0 split_index) `div` 5) 5
            (nd_slice X 0 split_index) (nd_slice y 0 split_index)))
      (nd_slice_from X split_index, nd_slice_from y split_index, 0))
      !! ("eduthie-sagemaker-1",
          upload_filename r "train" (format_int (Z.of_nat i)))
    = Some (shard_artifact t.1.1 t.1.2)) as Htrain.
  { intros w0 i t Ht. unfold after_shard at 1. cbn [s3_objects].
    rewrite lookup_insert_ne.
    2: { intros [= Heq].
         by apply (upload_filename_inj r "test" "train" 0 (Z.of_nat i)) in Heq
           as [? _]. }
    assert (t.2 = Z.of_nat i) as <-.
    { apply lookup_lt_Some in Ht as Hi. unfold shards_by in Hi.
      rewrite length_fmap, length_seq in Hi.
      rewrite lookup_shards_by in Ht by done. by simplify_eq. }
    apply s3_objects_foldl; [apply shards_by_NoDup|].
    apply list_elem_of_lookup. by exists i. }
  destruct r.
  - eexists. split; [by apply upload_cell_rev0_success|].
    split; [apply Htrain|apply lookup_insert_eq].
  - eexists. split; [by apply upload_cell_rev1_success|].
    split; [apply Htrain|apply lookup_insert_eq].
Qed.

(** X13: for a dataset of [n] rows with as many labels and a split index
    between 1 and [n] that 5 divides, the cell returns in either revision,
    and the objects [train/0] .. [train/4] followed by [test/0] hold
    consecutive pieces of the dataset that together are all of it: every
    row and its label is uploaded to exactly one of them. *)
Theorem upload_cell_covers_dataset r (X : list (list scalar)) (y : list scalar)
    (split_index : Z) w :
  length X = length y →
  1 ≤ split_index ≤ Z.of_nat (length X) → (5 | split_index) →
  ∃ w' (Xs : list (list (list scalar))) (ys : list (list scalar))
      (X_test : list (list scalar)) (y_test : list scalar),
    upload_cell r (Matrix X) (Vector y) split_index w = (Ok tt, w')
    ∧ length Xs = 5%nat ∧ length ys = 5%nat
    ∧ (∀ (i : nat) Xi yi, Xs !! i = Some Xi → ys !! i = Some yi →
         s3_objects w'
           !! ("eduthie-sagemaker-1",
               upload_filename r "train" (format_int (Z.of_nat i)))
         = Some (shard_artifact (Matrix Xi) (Vector yi)))
    ∧ s3_objects w'
        !! ("eduthie-sagemaker-1", upload_filename r "test" (format_int 0))
      = Some (shard_artifact (Matrix X_test) (Vector y_test))
    ∧ concat Xs ++ X_test = X ∧ concat ys ++ y_test = y.
Proof.
  intros Hlen Hs Hdiv.
  pose proof (length_slice_prefix X split_index ltac:(lia)) as HlX.
  pose proof (length_slice_prefix y split_index ltac:(lia)) as Hly.
  destruct (shard_count_size split_index 5 ltac:(lia) Hdiv ltac:(lia))
    as [Hq Hsq].
  set (q := Z.to_nat (split_index `div` 5)).
  assert (length (slice X 0 split_index) = (5 * q)%nat) as HX5 by (unfold q; lia).
  assert (length (slice y 0 split_index) = (5 * q)%nat) as Hy5 by (unfold q; lia).
  destruct (upload_cell_objects r (Matrix X) (Vector y) split_index w)
    as (w' & Hrun & Htrain & Htest).
  { simpl. lia. }
  { simpl. rewrite HlX, Z2Nat.id by lia. done. }
  exists w', (chunks q 5 (slice X 0 split_index)),
    (chunks q 5 (slice y 0 split_index)),
    (slice_from X split_index), (slice_from y split_index).
  split_and!.
  - done.
  - apply length_chunks.
  - apply length_chunks.
  - intros i Xi yi HXi Hyi.
    apply lookup_lt_Some in HXi as Hi. rewrite length_chunks in Hi.
    rewrite lookup_chunks in HXi by done.
    rewrite lookup_chunks in Hyi by done. simplify_eq.
    rewrite (Htrain i (Matrix (take q (drop (i * q) (slice X 0 split_index))),
                       Vector (take q (drop (i * q) (slice y 0 split_index))),
                       Z.of_nat i)); [done|]. simpl.
    rewrite HlX, Z2Nat.id by lia.
    replace (split_index `div` 5) with (Z.of_nat q) by (unfold q; lia).
    rewrite (shards_by_chunks _ _ 5 q) by done.
    by rewrite list_lookup_fmap, lookup_seq_lt by lia.
  - done.
  - rewrite concat_chunks by done. rewrite slice_prefix. apply take_drop.
  - rewrite concat_chunks by done. rewrite slice_prefix.
    unfold slice_from. apply take_drop.
Qed.

End CellTheorems.

(** ** Where the estimators look for the data *)

Section Locations.

Local Open Scope Z_scope.

(** X14: the object of shard [i] of the folder [train] (and of [test])
    lies directly under the location the second revision hands to [fit],
    at [<location>/<i>]; in the first revision, whose keys have a doubled
    separator, no such object lies under the location handed to [fit]. *)
Theorem data_location_covers_uploads (i : Z) :
  ("s3://eduthie-sagemaker-1/" +:+ upload_filename part_001 "train" (format_int i)
   = Cell1.train_data_location +:+ "/" +:+ format_int i)
  ∧ ("s3://eduthie-sagemaker-1/" +:+ upload_filename part_001 "test" (format_int i)
     = Cell1.test_data_location +:+ "/" +:+ format_int i)
  ∧ ("s3://eduthie-sagemaker-1/"
       +:+ upload_filename part_001 "train/full" (format_int i)
     = Cell1.full_train_data_location +:+ "/" +:+ format_int i)
  ∧ (∀ rest : string,
       "s3://eduthie-sagemaker-1/" +:+ upload_filename part_000 "train" (format_int i)
       ≠ Cell0.train_data_location +:+ rest)
  ∧ (∀ rest : string,
       "s3://eduthie-sagemaker-1/" +:+ upload_filename part_000 "test" (format_int i)
       ≠ Cell0.test_data_location +:+ rest).
Proof.
  split_and!; [done..| |]; intros rest Heq; by injection Heq.
Qed.

End Locations.

(** ** The labels *)

Section RealFnFacts.

Context {scalar : Type}.
Variables (mul sub add : scalar → scalar → scalar).
Variables (c_2 c_3_4 c_4_2 : scalar).

Lemma column_total (rows : list (list scalar)) (j : nat) :
  rows ≠ [] →
  Forall (λ row, j < length row) rows →
  ∃ xs, column (Matrix rows) j = Some xs
    ∧ length xs = length rows
    ∧ ∀ i row, rows !! i = Some row → xs !! i = row !! j.
Proof.
  intros Hne Hrows.
  assert (column (Matrix rows) j = mapM (λ row : list scalar, row !! j) rows)
    as -> by (by destruct rows).
  assert (is_Some (mapM (λ row : list scalar, row !! j) rows)) as [xs Hxs].
  { apply mapM_is_Some. eapply Forall_impl; [exact Hrows|].
    intros row Hrow. simpl. by apply lookup_lt_is_Some_2. }
  exists xs. split; [done|].
  apply mapM_Some_1 in Hxs.
  split; [symmetry; by eapply Forall2_length|].
  intros i row Hi.
  destruct (Forall2_lookup_l _ _ _ _ _ Hxs Hi) as (x & Hx & Hrow).
  by rewrite Hx, Hrow.
Qed.

(** X15: on a matrix with at least one row whose rows all have at least two
    entries, [real_fn] returns a vector with one label per row, and the
    label of row [i] is [2 * x0 - 3.4 * x1 + 4.2] for that row's first two
    entries; on a matrix without rows, or with a row of fewer than two
    entries, it returns nothing. *)
Theorem real_fn_labels (rows : list (list scalar)) :
  (rows ≠ [] → Forall (λ row, 2 ≤ length row) rows →
   ∃ ys, real_fn mul sub add c_2 c_3_4 c_4_2 (Matrix rows) = Some (Vector ys)
     ∧ length ys = length rows
     ∧ ∀ i row, rows !! i = Some row →
         ∃ x0 x1, row !! 0 = Some x0 ∧ row !! 1 = Some x1
           ∧ ys !! i = Some (add (sub (mul c_2 x0) (mul c_3_4 x1)) c_4_2))
  ∧ (rows = [] ∨ Exists (λ row, length row < 2) rows →
     real_fn mul sub add c_2 c_3_4 c_4_2 (Matrix rows) = None).
Proof.
  split.
  - intros Hne Hrows.
    destruct (column_total rows 0 Hne) as (x0s & H0 & Hlen0 & Hat0).
    { eapply Forall_impl; [exact Hrows|]. intros row Hrow. simpl in Hrow. lia. }
    destruct (column_total rows 1 Hne) as (x1s & H1 & Hlen1 & Hat1).
    { eapply Forall_impl; [exact Hrows|]. intros row Hrow. simpl in Hrow. lia. }
    unfold real_fn. rewrite H0, H1. simpl.
    eexists. split; [done|]. split.
    + rewrite length_fmap, length_zip_with, !length_fmap. lia.
    + intros i row Hi.
      rewrite Forall_lookup in Hrows. specialize (Hrows i row Hi).
      destruct (lookup_lt_is_Some_2 row 0) as [x0 Hx0]; [lia|].
      destruct (lookup_lt_is_Some_2 row 1) as [x1 Hx1]; [lia|].
      exists x0, x1. split_and!; [done..|].
      rewrite list_lookup_fmap, lookup_zip_with, !list_lookup_fmap.
      by rewrite (Hat0 i row Hi), (Hat1 i row Hi), Hx0, Hx1.
  - intros [->|Hshort]; [done|]. unfold real_fn.
    destruct (column (Matrix rows) 0) as [x0s|] eqn:H0; [|done].
    destruct (column (Matrix rows) 1) as [x1s|] eqn:H1; [|done].
    exfalso.
    assert (mapM (λ row : list scalar, row !! 1) rows = Some x1s) as H1'.
    { destruct rows; [done|exact H1]. }
    apply mapM_Some_1 in H1'.
    apply Exists_exists in Hshort as (row & Hrow & Hlen).
    apply list_elem_of_lookup in Hrow as [i Hi].
    destruct (Forall2_lookup_l _ _ _ _ _ H1' Hi) as (x & _ & Hx).
    apply lookup_lt_Some in Hx. lia.
Qed.

End RealFnFacts.

(** ** Concrete runs of the remaining cells *)

Section MoreConcreteRuns.

Import Examples MoreExamples.

Local Open Scope Z_scope.

Lemma upload_filename_inj_witness : "train" = "train" ∧ 3 = 3.
Proof. apply (upload_filename_inj part_000 "train" "train" 3 3). reflexivity. Defined.

Lemma split_and_upload_objects_retrievable_witness :
  s3_objects w2
    !! ("eduthie-sagemaker-1", "distributed_training_gluon_lab/train/1")
  = Some (shard_artifact (Matrix [[5; 6]; [7; 8]]) (Vector [30; 40])).
Proof.
  apply (split_and_upload_objects_retrievable part_001 (Matrix X4) (Vector y4)
           2 "train" empty_world w2 ltac:(vm_compute; reflexivity) 1%nat).
  simpl. lia.
Defined.

Lemma split_and_upload_frame_witness :
  local_fs w2 !! "/tmp/7" = None.
Proof.
  destruct (split_and_upload_frame part_001 (Matrix X4) (Vector y4) 2 "train"
              empty_world) as [Hfs _].
  fold w2 in Hfs. rewrite (Hfs "/tmp/7"); [reflexivity|].
  intros i Hi Heq. apply (path_join_tmp_inj 7 i) in Heq. subst i.
  vm_compute in Hi. repeat (apply elem_of_cons in Hi as [Hi|Hi]; [discriminate|]).
  by apply elem_of_nil in Hi.
Defined.


Lemma split_and_upload_returns_only_if_witness :
  2 ≠ 0 ∧ (2 | nd_len (Matrix X4)) ∧ nd_len (Matrix X4) ≠ 0.
Proof.
  apply (split_and_upload_returns_only_if part_001 (Matrix X4) (Vector y4) 2
           "train" empty_world w2).
  vm_compute. reflexivity.
Defined.

Lemma split_and_upload_empty_dataset_fails_witness :
  split_and_upload part_000 (Matrix []) (Vector ([] : list Z)) 3 "train" w2
  = (Raise ValueError, w2).
Proof.
  apply (split_and_upload_empty_dataset_fails part_000 (Matrix [])
           (Vector ([] : list Z)) 3 "train" w2).
  reflexivity.
Defined.

Lemma split_and_upload_negative_count_witness :
  split_and_upload part_001 (Matrix X4) (Vector y4) (-2) "train" empty_world
  = (Ok tt, empty_world).
Proof.
  apply (split_and_upload_negative_count part_001 (Matrix X4) (Vector y4) (-2)
           "train" empty_world).
  - lia.
  - by exists (-2).
  - simpl. lia.
Defined.

Lemma train_test_split_partition_witness :
  Z.of_nat (length (slice X6 0 5)) = 5.
Proof.
  destruct (train_test_split_partition X6 5) as (_ & _ & Hlen).
  apply Hlen. simpl. lia.
Defined.

Lemma upload_cell_rev1_objects_witness :
  ∃ w', Cell1.upload_cell (Matrix X6) (Vector y6) 5 empty_world = (Ok tt, w')
    ∧ s3_objects w'
        !! ("eduthie-sagemaker-1", "distributed_training_gluon_lab/test/0")
      = Some (shard_artifact (Matrix [[11; 12]]) (Vector [60])).
Proof.
  destruct (upload_cell_rev1_objects (Matrix X6) (Vector y6) 5 empty_world)
    as (w' & Hrun & _ & _ & Htest).
  - simpl. lia.
  - by exists 1.
  - exists w'. split; [exact Hrun|exact Htest].
Defined.

Lemma upload_cell_rev1_local_files_witness :
  ∃ w', Cell1.upload_cell (Matrix X6) (Vector y6) 5 empty_world = (Ok tt, w')
    ∧ local_fs w' !! "/tmp/0"
      = Some (shard_artifact (Matrix [[11; 12]]) (Vector [60])).
Proof.
  destruct (upload_cell_rev1_local_files (Matrix X6) (Vector y6) 5 empty_world)
    as (w' & Hrun & Htest & _).
  - simpl. lia.
  - by exists 1.
  - exists w'. split; [exact Hrun|exact Htest].
Defined.

Lemma upload_cell_rev1_partial_upload_witness :
  ∃ w', Cell1.upload_cell (Matrix X6) (Vector y6) 4 empty_world
        = (Raise AssertionError, w')
    ∧ length (uploads (new_events empty_world w')) = 1%nat.
Proof.
  destruct (upload_cell_rev1_partial_upload (Matrix X6) (Vector y6) 4 empty_world)
    as (w' & Hrun & Hup & _).
  - intros [z Hz]. simpl in Hz. lia.
  - exists w'. split; [exact Hrun|]. by rewrite Hup.
Defined.

Lemma upload_cell_rev0_no_upload_witness :
  ∃ w', Cell0.upload_cell (Matrix X6) (Vector y6) 4 empty_world
        = (Raise AssertionError, w')
    ∧ uploads (new_events empty_world w') = [].
Proof.
  destruct (upload_cell_rev0_no_upload (Matrix X6) (Vector y6) 4 empty_world)
    as (w' & Hrun & _ & Hup & _).
  - intros [z Hz]. simpl in Hz. lia.
  - exists w'. split; [exact Hrun|exact Hup].
Defined.

Lemma real_fn_labels_witness :
  ∃ ys, real_fn Z.mul Z.sub Z.add 2 3 4 (Matrix X4) = Some (Vector ys)
    ∧ length ys = 4%nat.
Proof.
  destruct (real_fn_labels Z.mul Z.sub Z.add 2 3 4 X4) as [Hok _].
  destruct Hok as (ys & Hys & Hlen & _).
  - discriminate.
  - repeat constructor.
  - exists ys. split; [exact Hys|exact Hlen].
Defined.

Lemma upload_cell_covers_dataset_witness :
  ∃ w' Xs X_test,
    upload_cell part_000 (Matrix X6) (Vector y6) 5 empty_world = (Ok tt, w')
    ∧ length Xs = 5%nat ∧ concat Xs ++ X_test = X6.
Proof.
  destruct (upload_cell_covers_dataset part_000 X6 y6 5 empty_world)
    as (w' & Xs & ys & X_test & y_test & Hrun & HXs & _ & _ & _ & HX & _).
  - reflexivity.
  - simpl. lia.
  - by exists 1.
  - exists w', Xs, X_test. split; [exact Hrun|]. split; [exact HXs|exact HX].
Defined.

End MoreConcreteRuns.
